(** * The HTTP request router of index.js over its database session

    The development follows [requestHandler] of index.js: the URL of the
    request is parsed, the optional [name] query parameter is read, the
    path selects one of four behaviours, at most one statement is sent
    through [client.query], and a JSON response is written together with
    a log line.

    The handler is an async function with effects, so it is embedded in a
    small monad that threads the database session, collects the effects
    in the order they happen and propagates exceptions. *)

From Stdlib Require Import String Ascii List Bool Arith ZArith Lia.
From Stdlib Require Import Decimal DecimalString.
From Stdlib Require Import Permutation.
Import ListNotations.
Open Scope string_scope.
Open Scope list_scope.

(** ** JavaScript values used by the handler *)

(** An [Error] object, of which the handler reads [e.message] only. *)
Record Exn : Type := { message : string }.

(** The result of evaluating an expression: a value, or an exception. For
    the async handler, [Normal] is a fulfilled promise and [Throw] a
    rejected one. *)
Inductive completion (A : Type) : Type :=
| Normal (a : A)
| Throw (e : Exn).
Arguments Normal {A} a.
Arguments Throw {A} e.

(** [a ?? b]: the right operand is taken only when the left one is null
    or undefined; an empty string is kept. *)
Definition nullish {A : Type} (a : option A) (b : A) : A :=
  match a with
  | Some v => v
  | None => b
  end.
Infix "??" := nullish (at level 45, left associativity).

(** [`${n}`] for a non-negative integer [n]. *)
Definition string_of_nat (n : nat) : string :=
  NilEmpty.string_of_uint (Nat.to_uint n).

(** One row of [my_table]: [id BIGSERIAL], [name varchar] (nullable) and
    [date TIMESTAMP]. *)
Record Row : Type := { id : Z; name : option string; date : Z }.

(** What [client.query] resolves to; the handler reads [rows] and
    [rowCount]. *)
Record QueryResult : Type := { rows : list Row; rowCount : nat }.

(** The parts of a WHATWG [URL] object the handler reads. [searchParams]
    is the list of name-value pairs of the query string, in order. *)
Record URL : Type := { pathname : string; searchParams : list (string * string) }.

(** [searchParams.get(key)]: the value of the first pair named [key], or
    null. *)
Fixpoint searchParams_get (params : list (string * string)) (key : string)
  : option string :=
  match params with
  | [] => None
  | (k, v) :: rest => if k =? key then Some v else searchParams_get rest key
  end.

(** The request object: the handler reads [req.method] and [req.url]. *)
Record IncomingMessage : Type := { method : string; url : string }.

(** The three shapes of [responseObject] handed to [JSON.stringify]: the
    array [entries.rows], the object [{ success, message }] and a bare
    string. *)
Inductive ResponseObject : Type :=
| RowArray (entries_rows : list Row)
| SuccessMessage (success : bool) (msg : string)
| Text (s : string).

(** The effects of the handler, in program order. [client_query] records
    the two arguments of [client.query] (no second argument is recorded
    as the empty list), [res_end] the value whose [JSON.stringify] is
    written, [console_log] the method, URL and code of the log line (its
    [new Date()] is left out). *)
Inductive Effect : Type :=
| client_query (text : string) (values : list string)
| res_writeHead (code : nat) (headers : list (string * string))
| res_end (body : ResponseObject)
| console_log (req_method req_url : string) (code : nat).

(** The statements sent to the database, and the arguments bound to them. *)
Definition queries (trace : list Effect) : list (string * list string) :=
  flat_map (fun ev => match ev with
                      | client_query text values => [(text, values)]
                      | _ => []
                      end) trace.

(** The status codes written by [res.writeHead]. *)
Definition status_codes (trace : list Effect) : list nat :=
  flat_map (fun ev => match ev with
                      | res_writeHead code _ => [code]
                      | _ => []
                      end) trace.

(** The bodies written by [res.end]. *)
Definition bodies (trace : list Effect) : list ResponseObject :=
  flat_map (fun ev => match ev with
                      | res_end body => [body]
                      | _ => []
                      end) trace.

(** ** The monad of the handler *)

Module Async.
Section Monad.
Context {Session : Type}.

(** A computation from a session: its completion, the session it
    leaves, and its effects. *)
Definition M (A : Type) : Type :=
  Session -> completion A * Session * list Effect.

Definition ret {A : Type} (a : A) : M A :=
  fun s => (Normal a, s, []).

Definition bind {A B : Type} (m : M A) (f : A -> M B) : M B :=
  fun s =>
    match m s with
    | (Normal a, s1, t1) =>
        match f a s1 with
        | (r, s2, t2) => (r, s2, t1 ++ t2)
        end
    | (Throw e, s1, t1) => (Throw e, s1, t1)
    end.

(** An expression that may throw and has no other effect. *)
Definition eval {A : Type} (c : completion A) : M A :=
  fun s => (c, s, []).

Definition emit (ev : Effect) : M unit :=
  fun s => (Normal tt, s, [ev]).

(** [try { body } catch (e) { handler }]. *)
Definition try_catch {A : Type} (body : M A) (handler : Exn -> M A) : M A :=
  fun s =>
    match body s with
    | (Normal a, s1, t1) => (Normal a, s1, t1)
    | (Throw e, s1, t1) =>
        match handler e s1 with
        | (r, s2, t2) => (r, s2, t1 ++ t2)
        end
    end.
End Monad.
End Async.

Declare Scope async_scope.
Delimit Scope async_scope with async.
Notation "x <- m ;; k" := (Async.bind m (fun x => k))
  (at level 61, m at next level, right associativity) : async_scope.
Notation "m ;; k" := (Async.bind m (fun _ => k))
  (at level 61, right associativity) : async_scope.

(** ** The statements and literals of index.js *)

Definition base_url : string := "http://localhost:8080".
Definition select_all : string := "SELECT * FROM my_table;".
Definition select_by_name : string := "SELECT * FROM my_table WHERE name = $1;".
Definition insert_name : string := "INSERT INTO my_table(name) VALUES($1);".
Definition json_headers : list (string * string) :=
  [("Content-Type", "application/json")].
Definition not_found_text : string := "The requested route doesn't exist :(".

(** [`Inserted ${rowCount} row with name '${name}'`]. *)
Definition inserted_message (count : nat) (name : string) : string :=
  "Inserted " ++ string_of_nat count ++ " row with name '" ++ name ++ "'".

(** [`Some error happened :(( -- (error: ${e.message})`]. *)
Definition error_text (e : Exn) : string :=
  "Some error happened :(( -- (error: " ++ message e ++ ")".

(** How the process treats a promise rejection nobody handles: Node's
    [--unhandled-rejections] is [throw] (the process ends) or [warn]. *)
Inductive RejectionMode : Type := rejections_throw | rejections_warn.

(** ** The request handler *)

Section Router.
Context {Session : Type}.

(** [new URL(input, base)] of the platform. *)
Variable new_URL : string -> string -> completion URL.

(** [client.query(text, values)] of the database session that
    [getClient] returned. *)
Variable client_query_call :
  string -> list string -> Session -> completion QueryResult * Session.

Local Open Scope async_scope.

(** [await client.query(text, values)]. *)
Definition await_query (text : string) (values : list string)
  : Async.M (Session := Session) QueryResult :=
  fun s =>
    match client_query_call text values s with
    | (r, s') => (r, s', [client_query text values])
    end.

(** The [jsonResponse] closure; [responseCode] defaults to 200. *)
Definition jsonResponse (req : IncomingMessage)
    (responseObject : ResponseObject) (responseCode : option nat)
  : Async.M (Session := Session) unit :=
  let responseCode := responseCode ?? 200 in
  Async.emit (res_writeHead responseCode json_headers) ;;
  Async.emit (res_end responseObject) ;;
  Async.emit (console_log (method req) (url req) responseCode).

(** The body of the [try] block, for a parsed URL and the name. *)
Definition route (req : IncomingMessage) (requestUrl : URL) (name : string)
  : Async.M (Session := Session) unit :=
  if (pathname requestUrl =? "") || (pathname requestUrl =? "/") then
    entries <- await_query select_all [] ;;
    jsonResponse req (RowArray (rows entries)) None
  else if pathname requestUrl =? "/read" then
    entries <- await_query select_by_name [name] ;;
    jsonResponse req (RowArray (rows entries)) None
  else if pathname requestUrl =? "/add" then
    insertRow <- await_query insert_name [name] ;;
    jsonResponse req
      (SuccessMessage true (inserted_message (rowCount insertRow) name)) None
  else
    jsonResponse req (Text not_found_text) (Some 404).

Definition requestHandler (req : IncomingMessage)
  : Async.M (Session := Session) unit :=
  requestUrl <- Async.eval (new_URL (url req) base_url) ;;
  let name := searchParams_get (searchParams requestUrl) "name" ?? "john" in
  Async.try_catch
    (route req requestUrl name)
    (fun e => jsonResponse req (Text (error_text e)) (Some 500)).

(** *** The server loop

    [server.on('request', requestHandler)]: the handler runs once per
    incoming request. A handler awaits once, at its statement, and the
    session runs one statement at a time, so a run lists the requests in
    the order of their statements. Between requests the world outside
    may act on the session (the connection drops, time passes). *)

Variable External : Type.
Variable external_step : External -> Session -> Session.
Variable unhandled_rejections : RejectionMode.

Inductive Event : Type :=
| Incoming (req : IncomingMessage)
| Outside (ev : External).

(** What the process did for one request. *)
Record Handled : Type :=
  { request : IncomingMessage;
    outcome : completion unit;
    effects : list Effect }.

Fixpoint serve (events : list Event) (s : Session) : Session * list Handled :=
  match events with
  | [] => (s, [])
  | Outside ev :: rest => serve rest (external_step ev s)
  | Incoming req :: rest =>
      match requestHandler req s with
      | (r, s1, t) =>
          let entry := {| request := req; outcome := r; effects := t |} in
          match r, unhandled_rejections with
          | Throw _, rejections_throw => (s1, [entry])
          | _, _ =>
              match serve rest s1 with
              | (s2, log) => (s2, entry :: log)
              end
          end
      end
  end.
End Router.

Arguments Incoming {External} req.
Arguments Outside {External} ev.

(** ** The database session *)

Module Pg.

(** Modelled from the spec: the Data Access Collaborator, that is the
    connected session that [getClient] of the absent get-client.js
    returns, with its [query(sqlText, parameters) -> {rows, rowCount}].
    The session holds the one persisted table with its columns [id]
    (auto-incrementing), [name] (nullable text) and [date] (the time of
    the insert); the statements are read as PostgreSQL reads the three
    texts that index.js sends. [broken] is the error that every query
    is rejected with once the connection is lost. *)
Record Session : Type :=
  { broken : option Exn;
    my_table : list Row;
    my_table_id_seq : Z;
    current_timestamp : Z }.

(** A text value cannot hold the zero byte. *)
Fixpoint has_nul (s : string) : bool :=
  match s with
  | EmptyString => false
  | String c rest => (c =? Ascii.zero)%char || has_nul rest
  end.

Definition dquote : string := String (ascii_of_nat 34) EmptyString.

Definition invalid_byte_sequence : Exn :=
  {| message := "invalid byte sequence for encoding " ++ dquote ++ "UTF8"
                ++ dquote ++ ": 0x00" |}.

Definition bind_mismatch (supplied required : nat) : Exn :=
  {| message := "bind message supplies " ++ string_of_nat supplied
                ++ " parameters, but prepared statement " ++ dquote ++ dquote
                ++ " requires " ++ string_of_nat required |}.

(** index.js sends three statements; any other text is rejected. *)
Definition unsupported_statement : Exn :=
  {| message := "unsupported statement" |}.

(** [WHERE name = $1]: a row whose name is NULL matches no value. *)
Definition name_is (v : string) (r : Row) : bool :=
  match name r with
  | Some n => n =? v
  | None => false
  end.

Definition select_where_name (v : string) (table : list Row) : list Row :=
  filter (name_is v) table.

(** The row that [INSERT INTO my_table(name) VALUES($1)] adds: [id]
    from the sequence, [date] from the column default. *)
Definition new_row (v : string) (s : Session) : Row :=
  {| id := my_table_id_seq s; name := Some v; date := current_timestamp s |}.

Definition insert (v : string) (s : Session) : Session :=
  {| broken := broken s;
     my_table := my_table s ++ [new_row v s];
     my_table_id_seq := (my_table_id_seq s + 1)%Z;
     current_timestamp := current_timestamp s |}.

Definition selected (found : list Row) : QueryResult :=
  {| rows := found; rowCount := length found |}.

(** Modelled from the spec: [Session.query(text, params)] of the Data
    Access Collaborator, on the statements of index.js. A failed
    statement leaves the session as it was. *)
Definition query (text : string) (values : list string) (s : Session)
  : completion QueryResult * Session :=
  match broken s with
  | Some e => (Throw e, s)
  | None =>
      if text =? select_all then
        match values with
        | [] => (Normal (selected (my_table s)), s)
        | _ => (Throw (bind_mismatch (length values) 0), s)
        end
      else if text =? select_by_name then
        match values with
        | [v] =>
            if has_nul v then (Throw invalid_byte_sequence, s)
            else (Normal (selected (select_where_name v (my_table s))), s)
        | _ => (Throw (bind_mismatch (length values) 1), s)
        end
      else if text =? insert_name then
        match values with
        | [v] =>
            if has_nul v then (Throw invalid_byte_sequence, s)
            else (Normal {| rows := []; rowCount := 1 |}, insert v s)
        | _ => (Throw (bind_mismatch (length values) 1), s)
        end
      else (Throw unsupported_statement, s)
  end.

(** What happens to the session from outside the handler. *)
Inductive External : Type :=
| connection_lost (e : Exn)
| clock_advance (dt : nat).

Definition external_step (ev : External) (s : Session) : Session :=
  match ev with
  | connection_lost e =>
      {| broken := Some (match broken s with Some e0 => e0 | None => e end);
         my_table := my_table s;
         my_table_id_seq := my_table_id_seq s;
         current_timestamp := current_timestamp s |}
  | clock_advance dt =>
      {| broken := broken s;
         my_table := my_table s;
         my_table_id_seq := my_table_id_seq s;
         current_timestamp := (current_timestamp s + Z.of_nat dt)%Z |}
  end.

(** A connected session over an empty table, as after [setupTable] on a
    fresh database. *)
Definition fresh : Session :=
  {| broken := None; my_table := []; my_table_id_seq := 1;
     current_timestamp := 0 |}.
End Pg.

(** Whether a call returned normally. *)
Definition is_normal {A : Type} (c : completion A) : bool :=
  match c with
  | Normal _ => true
  | Throw _ => false
  end.

(** ** A fragment of the URL constructor, for concrete requests

    Request targets in origin form ([/path] or [/path?query]) that start
    with one slash only and are written with letters, digits, [-], [_],
    [/], [?], [=] and [&]: for these [new URL(target, base)] takes the
    path as it is and [searchParams] splits the query at [&] and at the
    first [=], with nothing to decode. A target that starts with two
    slashes names a host; the target [//] has an empty host and is
    rejected. The theorems below hold for any constructor; this fragment
    only provides concrete requests, and other targets are outside it
    (they are all rejected here, which the platform does not do: it
    parses [//foo], dots, [+] and percent escapes). *)

Module OriginForm.

Fixpoint break_at (c : ascii) (s : string) : string * option string :=
  match s with
  | EmptyString => (EmptyString, None)
  | String a rest =>
      if (a =? c)%char then (EmptyString, Some rest)
      else match break_at c rest with
           | (h, t) => (String a h, t)
           end
  end.

Fixpoint split_at (c : ascii) (s : string) : list string :=
  match s with
  | EmptyString => [EmptyString]
  | String a rest =>
      if (a =? c)%char then EmptyString :: split_at c rest
      else match split_at c rest with
           | h :: t => String a h :: t
           | [] => [String a EmptyString]
           end
  end.

Definition plain (a : ascii) : bool :=
  let n := nat_of_ascii a in
  ((48 <=? n) && (n <=? 57))%nat || ((65 <=? n) && (n <=? 90))%nat
  || ((97 <=? n) && (n <=? 122))%nat
  || existsb (Ascii.eqb a) ["-"; "_"; "/"; "?"; "="; "&"]%char.

Fixpoint all_plain (s : string) : bool :=
  match s with
  | EmptyString => true
  | String a rest => plain a && all_plain rest
  end.

Definition parse_query (q : string) : list (string * string) :=
  flat_map (fun piece =>
              match piece with
              | EmptyString => []
              | _ => match break_at "=" piece with
                     | (k, v) => [(k, v ?? "")]
                     end
              end) (split_at "&" q).

Definition invalid_url : Exn := {| message := "Invalid URL" |}.

Definition new_URL (input base : string) : completion URL :=
  match input with
  | String "/" (String "/" _) => Throw invalid_url
  | String "/" _ =>
      if all_plain input then
        match break_at "?" input with
        | (path, q) =>
            Normal {| pathname := path; searchParams := parse_query (q ?? "") |}
        end
      else Throw invalid_url
  | _ => Throw invalid_url
  end.
End OriginForm.

(** ** The fragment with percent escapes in the query

    As [OriginForm], with escapes [%XY] of ASCII bytes (X from 0 to 7)
    allowed in the query: [searchParams] splits the query first and then
    decodes each name and each value, so [%00] gives the zero byte. The
    path has no escape. Targets outside the fragment are rejected here
    as in [OriginForm]. *)

Module PercentForm.

Definition hex_value (a : ascii) : option nat :=
  let n := nat_of_ascii a in
  if ((48 <=? n) && (n <=? 57))%nat then Some (n - 48)
  else if ((65 <=? n) && (n <=? 70))%nat then Some (n - 55)
  else if ((97 <=? n) && (n <=? 102))%nat then Some (n - 87)
  else None.

Fixpoint percent_decode (s : string) : string :=
  match s with
  | EmptyString => EmptyString
  | String c tl =>
      if (c =? "%")%char then
        match tl with
        | String h (String l rest) =>
            match hex_value h, hex_value l with
            | Some x, Some y =>
                String (ascii_of_nat (16 * x + y)) (percent_decode rest)
            | _, _ => String c (percent_decode tl)
            end
        | _ => String c (percent_decode tl)
        end
      else String c (percent_decode tl)
  end.

(** Every character is plain or starts the escape of an ASCII byte. *)
Fixpoint escapes_ascii (s : string) : bool :=
  match s with
  | EmptyString => true
  | String c tl =>
      if (c =? "%")%char then
        match tl with
        | String h (String l rest) =>
            match hex_value h, hex_value l with
            | Some x, Some _ => (x <? 8)%nat && escapes_ascii rest
            | _, _ => false
            end
        | _ => false
        end
      else OriginForm.plain c && escapes_ascii tl
  end.

Definition decode_pair (kv : string * string) : string * string :=
  (percent_decode (fst kv), percent_decode (snd kv)).

Definition new_URL (input base : string) : completion URL :=
  match input with
  | String "/" (String "/" _) => Throw OriginForm.invalid_url
  | String "/" _ =>
      match OriginForm.break_at "?" input with
      | (path, q) =>
          if OriginForm.all_plain path && escapes_ascii (q ?? "") then
            Normal {| pathname := path;
                      searchParams :=
                        map decode_pair (OriginForm.parse_query (q ?? "")) |}
          else Throw OriginForm.invalid_url
      end
  | _ => Throw OriginForm.invalid_url
  end.
End PercentForm.

(** The string of one zero byte. *)
Definition zero_byte : string := String Ascii.zero EmptyString.

(** ** Vocabulary of the statements below *)

(** The name the handler works with: the [name] parameter, or ["john"]
    when the URL has none. *)
Definition name_of (requestUrl : URL) : string :=
  searchParams_get (searchParams requestUrl) "name" ?? "john".

(** The three effects of one call of [jsonResponse]. *)
Definition response (req : IncomingMessage) (body : ResponseObject) (code : nat)
  : list Effect :=
  [res_writeHead code json_headers; res_end body;
   console_log (method req) (url req) code].

(** A handled request to [/add] that was answered 200. *)
Definition successful_add (new_URL : string -> string -> completion URL)
    (h : Handled) : bool :=
  match new_URL (url (request h)) base_url with
  | Normal u =>
      (pathname u =? "/add")
      && existsb (Nat.eqb 200) (status_codes (effects h))
  | Throw _ => false
  end.

Definition count_successful_adds (new_URL : string -> string -> completion URL)
    (log : list Handled) : nat :=
  length (filter (successful_add new_URL) log).

(** The names that the successful [/add] requests of a log inserted, in
    order. *)
Definition inserted_name (new_URL : string -> string -> completion URL)
    (h : Handled) : list string :=
  match new_URL (url (request h)) base_url with
  | Normal u => if successful_add new_URL h then [name_of u] else []
  | Throw _ => []
  end.

Definition inserted_names (new_URL : string -> string -> completion URL)
    (log : list Handled) : list string :=
  flat_map (inserted_name new_URL) log.

(** The log entry of the server for a request and the result of its
    handler. *)
Definition entry_of (req : IncomingMessage)
    (result : completion unit * Pg.Session * list Effect) : Handled :=
  {| request := req; outcome := fst (fst result); effects := snd result |}.

(** ** Concrete requests and sessions *)

Definition GET (target : string) : IncomingMessage :=
  {| method := "GET"; url := target |}.

(** A session whose table holds three rows, one of them without a name. *)
Definition three_rows : Pg.Session :=
  {| Pg.broken := None;
     Pg.my_table := [ {| id := 1; name := Some "john"; date := 10 |};
                      {| id := 2; name := None; date := 20 |};
                      {| id := 3; name := Some "bob"; date := 30 |} ];
     Pg.my_table_id_seq := 4;
     Pg.current_timestamp := 40 |}.

(** The same session after its connection was lost. *)
Definition disconnected : Pg.Session :=
  Pg.external_step
    (Pg.connection_lost {| message := "Connection terminated unexpectedly" |})
    three_rows.


(** A run of the server: requests, a rejected one among them, and time
    passing. *)
Definition busy_morning : list (Event Pg.External) :=
  [Incoming (GET "/add?name=bob");
   Outside (Pg.clock_advance 5);
   Incoming (GET "/read");
   Incoming (GET "/add");
   Incoming (GET "//");
   Incoming (GET "/add?name=alice")].

(** ** The scripts, and the start of the server

    add-data.js, read-data.js and setup-table.js are one async function
    each: they take a client, send one statement, print, and end the
    client. The async function of index.js takes a client, sets the table
    up and starts the server. Their effects are the statements sent,
    the lines printed, [client.end()] and [server.listen]. *)

Inductive ProcessEffect : Type :=
| query_sent (text : string) (values : list string)
| console_log_line (line : string)
| client_end
| server_listen (port : nat) (host : string).

Definition statements_sent (trace : list ProcessEffect)
  : list (string * list string) :=
  flat_map (fun ev => match ev with
                      | query_sent text values => [(text, values)]
                      | _ => []
                      end) trace.

Definition lines_printed (trace : list ProcessEffect) : list string :=
  flat_map (fun ev => match ev with
                      | console_log_line line => [line]
                      | _ => []
                      end) trace.

Definition is_server_listen (ev : ProcessEffect) : bool :=
  match ev with
  | server_listen _ _ => true
  | _ => false
  end.

Module Script.
Section Monad.
Context {Session : Type}.

Definition M (A : Type) : Type :=
  Session -> completion A * Session * list ProcessEffect.

Definition bind {A B : Type} (m : M A) (f : A -> M B) : M B :=
  fun s =>
    match m s with
    | (Normal a, s1, t1) =>
        match f a s1 with
        | (r, s2, t2) => (r, s2, t1 ++ t2)
        end
    | (Throw e, s1, t1) => (Throw e, s1, t1)
    end.

Definition eval {A : Type} (c : completion A) : M A :=
  fun s => (c, s, []).

Definition emit (ev : ProcessEffect) : M unit :=
  fun s => (Normal tt, s, [ev]).
End Monad.
End Script.

Declare Scope script_scope.
Delimit Scope script_scope with script.
Notation "x <- m ;; k" := (Script.bind m (fun x => k))
  (at level 61, m at next level, right associativity) : script_scope.
Notation "m ;; k" := (Script.bind m (fun _ => k))
  (at level 61, right associativity) : script_scope.

Definition LF : string := String (ascii_of_nat 10) EmptyString.
Definition TAB : string := String (ascii_of_nat 9) EmptyString.

(** The template literal [createTableQuery] of index.js. *)
Definition createTableQuery_index : string :=
  LF ++ "    CREATE TABLE IF NOT EXISTS my_table("
  ++ LF ++ "      id BIGSERIAL PRIMARY KEY NOT NULL ,"
  ++ LF ++ "      name varchar,"
  ++ LF ++ "      date TIMESTAMP NOT NULL DEFAULT current_timestamp"
  ++ LF ++ "    );"
  ++ LF ++ "  ".

(** The template literal [createTableQuery] of setup-table.js. *)
Definition createTableQuery_script : string :=
  LF ++ "    CREATE TABLE IF NOT EXISTS my_table("
  ++ LF ++ "      id BIGSERIAL PRIMARY KEY NOT NULL ,"
  ++ LF ++ "      name varchar,"
  ++ LF ++ "      date TIMESTAMP NOT NULL DEFAULT current_timestamp"
  ++ LF ++ "    );"
  ++ LF ++ "  ".

(** [Object.keys(o)]: a TypeError on undefined; a row has its columns
    as keys, in the order of the table. *)
Definition Object_keys (o : option Row) : completion (list string) :=
  match o with
  | None => Throw {| message := "Cannot convert undefined or null to object" |}
  | Some _ => Normal ["id"; "name"; "date"]
  end.

(** [array.join(separator)]: null and undefined elements count as the
    empty string. *)
Fixpoint Array_join (separator : string) (items : list (option string))
  : string :=
  match items with
  | [] => ""
  | [item] => item ?? ""
  | item :: rest => (item ?? "") ++ separator ++ Array_join separator rest
  end.

Definition string_of_Z (z : Z) : string :=
  NilEmpty.string_of_int (Z.to_int z).

(** [address] of index.js. *)
Definition address_port : nat := 8080.
Definition address_host : string := "0.0.0.0".

Section Scripts.
Context {Session : Type}.

(** [await getClient()] of the absent get-client.js: a connected client,
    or an exception. *)
Variable getClient : completion Session.
Variable client_query_call :
  string -> list string -> Session -> completion QueryResult * Session.

(** [client.end()]. *)
Variable client_end_call : Session -> completion unit * Session.

(** How a [Date] is printed ([Date.prototype.toString], which depends on
    the time zone of the process). *)
Variable Date_toString : Z -> string.

Local Open Scope script_scope.

Definition await_client_query (text : string) (values : list string)
  : Script.M (Session := Session) QueryResult :=
  fun s =>
    match client_query_call text values s with
    | (r, s') => (r, s', [query_sent text values])
    end.

Definition await_client_end : Script.M (Session := Session) unit :=
  fun s =>
    match client_end_call s with
    | (r, s') => (r, s', [client_end])
    end.

Definition console_log1 (line : string) : Script.M (Session := Session) unit :=
  Script.emit (console_log_line line).

(** [const client = await getClient();] followed by the rest of the
    async function. The client is [None] when there never was one. *)
Definition with_client {A : Type} (body : Script.M (Session := Session) A)
  : completion A * option Session * list ProcessEffect :=
  match getClient with
  | Throw e => (Throw e, None, [])
  | Normal client =>
      match body client with
      | (r, s, t) => (r, Some s, t)
      end
  end.

(** add-data.js, with [process.argv[2]]. *)
Definition add_data_js (argv2 : option string)
  : completion unit * option Session * list ProcessEffect :=
  with_client
    (let name := argv2 ?? "john" in
     insertRow <- await_client_query insert_name [name] ;;
     console_log1 ("Inserted " ++ string_of_nat (rowCount insertRow) ++ " row") ;;
     await_client_end).

(** [Object.values(r)] of a row, each as [join] prints it: the id (the
    driver gives a bigint as a string), the name (null when the column
    is NULL) and the date. *)
Definition Object_values (r : Row) : list (option string) :=
  [Some (string_of_Z (id r)); name r; Some (Date_toString (date r))].

(** read-data.js, with [process.argv[2]]. *)
Definition read_data_js (argv2 : option string)
  : completion unit * option Session * list ProcessEffect :=
  with_client
    (let name := argv2 ?? "john" in
     entries <- await_client_query select_by_name [name] ;;
     console_log1 ("Database entries for " ++ name ++ ": "
                   ++ string_of_nat (rowCount entries) ++ " row(s)") ;;
     keys <- Script.eval (Object_keys (hd_error (rows entries))) ;;
     console_log1 (Array_join TAB (map Some keys)) ;;
     console_log1
       (Array_join LF
          (map (fun r => Some (Array_join TAB (Object_values r)))
               (rows entries))) ;;
     await_client_end).

(** setup-table.js. *)
Definition setup_table_js
  : completion unit * option Session * list ProcessEffect :=
  with_client
    (res <- await_client_query createTableQuery_script [] ;;
     console_log1 "Created table." ;;
     await_client_end).

(** [setupTable(client)] of index.js. *)
Definition setupTable : Script.M (Session := Session) QueryResult :=
  await_client_query createTableQuery_index [].

(** The async function of index.js up to its last line: the table is set
    up, the server listens, and the address is printed. *)
Definition start_server : Script.M (Session := Session) unit :=
  setupTable ;;
  Script.emit (server_listen address_port address_host) ;;
  console_log1 ("Listening on: http://" ++ address_host ++ ":"
                ++ string_of_nat address_port).

Variable new_URL : string -> string -> completion URL.
Variable External : Type.
Variable external_step : External -> Session -> Session.
Variable unhandled_rejections : RejectionMode.

(** index.js as a process: the start, then the requests. When the start
    throws, the rejection is not handled and no request is served. *)
Definition index_js (events : list (Event External))
  : completion unit * option Session * list ProcessEffect * list Handled :=
  match with_client start_server with
  | (Normal _, Some s1, t) =>
      match serve new_URL client_query_call External external_step
              unhandled_rejections events s1 with
      | (s2, log) => (Normal tt, Some s2, t, log)
      end
  | (r, s, t) => (r, s, t, [])
  end.
End Scripts.

(** Modelled from the spec: [Session.end()] of the Data Access
    Collaborator closes the connection; the queries that follow are
    rejected. *)
Definition pg_end (s : Pg.Session) : completion unit * Pg.Session :=
  (Normal tt,
   Pg.external_step
     (Pg.connection_lost
        {| message := "Client was closed and is not queryable" |}) s).

(** Modelled from the spec: the session also takes the statement that
    creates the table, which is idempotent; on a session whose table
    exists it changes nothing. *)
Definition pg_query_with_setup (text : string) (values : list string)
    (s : Pg.Session) : completion QueryResult * Pg.Session :=
  if text =? createTableQuery_index then
    match Pg.broken s with
    | Some e => (Throw e, s)
    | None => (Normal {| rows := []; rowCount := 0 |}, s)
    end
  else Pg.query text values s.

(** A run of the server in which every URL parses. *)
Definition quiet_morning : list (Event Pg.External) :=
  [Incoming (GET "/add?name=bob");
   Outside (Pg.clock_advance 5);
   Incoming (GET "/nowhere");
   Incoming (GET "/read?name=bob")].

(** The ids of the table are distinct and below the next value of the
    sequence. *)
Definition ids_fresh (s : Pg.Session) : Prop :=
  NoDup (map id (Pg.my_table s))
  /\ forall r, In r (Pg.my_table s) -> (id r < Pg.my_table_id_seq s)%Z.

(** The requests among the events of a run. *)
Fixpoint incoming_requests {External : Type} (events : list (Event External))
  : list IncomingMessage :=
  match events with
  | [] => []
  | Incoming req :: rest => req :: incoming_requests rest
  | Outside _ :: rest => incoming_requests rest
  end.

Example new_URL_add_bob :
  OriginForm.new_URL "/add?name=bob" base_url
  = Normal {| pathname := "/add"; searchParams := [("name", "bob")] |}.
Proof. reflexivity. Qed.

Example new_URL_add_empty_name :
  OriginForm.new_URL "/add?name=" base_url
  = Normal {| pathname := "/add"; searchParams := [("name", "")] |}.
Proof. reflexivity. Qed.

Example new_URL_read_no_query :
  OriginForm.new_URL "/read" base_url
  = Normal {| pathname := "/read"; searchParams := [] |}.
Proof. reflexivity. Qed.

Example new_URL_double_slash :
  OriginForm.new_URL "//" base_url = Throw OriginForm.invalid_url.
Proof. reflexivity. Qed.

(** ** The handler over any URL constructor and any session *)

Section RouterFacts.
Context {Session : Type}.
Variable new_URL : string -> string -> completion URL.
Variable client_query_call :
  string -> list string -> Session -> completion QueryResult * Session.
Variable External : Type.
Variable external_step : External -> Session -> Session.
Variable unhandled_rejections : RejectionMode.

Local Abbreviation handler := (requestHandler new_URL client_query_call).
Local Abbreviation on_error req :=
  (fun e => jsonResponse req (Text (error_text e)) (Some 500)).

Lemma jsonResponse_run (req : IncomingMessage) body code (s : Session) :
  jsonResponse req body code s = (Normal tt, s, response req body (code ?? 200)).
Proof. reflexivity. Qed.

(** After a successful parse the handler is its [try]/[catch]. *)
Lemma requestHandler_parsed req u (s : Session) :
  new_URL (url req) base_url = Normal u ->
  handler req s
  = Async.try_catch (route client_query_call req u (name_of u)) (on_error req) s.
Proof.
  intros Hu. unfold requestHandler, Async.bind, Async.eval. rewrite Hu.
  fold (name_of u).
  destruct (Async.try_catch _ _ s) as [[r s1] t]. reflexivity.
Qed.

(** A route that awaits one statement and answers from its result: the
    answer is 200 with that result, or 500 with the error's message. *)
Lemma try_one_statement req text values (f : QueryResult -> ResponseObject)
    (s : Session) :
  Async.try_catch
    (Async.bind (await_query client_query_call text values)
                (fun x => jsonResponse req (f x) None))
    (on_error req) s
  = match client_query_call text values s with
    | (Normal x, s') =>
        (Normal tt, s', client_query text values :: response req (f x) 200)
    | (Throw e, s') =>
        (Normal tt, s',
         client_query text values :: response req (Text (error_text e)) 500)
    end.
Proof.
  unfold Async.try_catch, Async.bind, await_query.
  destruct (client_query_call text values s) as [[x | e] s']; reflexivity.
Qed.

Lemma route_default req u name :
  pathname u = "" \/ pathname u = "/" ->
  route client_query_call req u name
  = Async.bind (await_query client_query_call select_all [])
      (fun entries => jsonResponse req (RowArray (rows entries)) None).
Proof. unfold route. intros [-> | ->]; reflexivity. Qed.

Lemma route_read req u name :
  pathname u = "/read" ->
  route client_query_call req u name
  = Async.bind (await_query client_query_call select_by_name [name])
      (fun entries => jsonResponse req (RowArray (rows entries)) None).
Proof. unfold route. intros ->. reflexivity. Qed.

Lemma route_add req u name :
  pathname u = "/add" ->
  route client_query_call req u name
  = Async.bind (await_query client_query_call insert_name [name])
      (fun insertRow =>
         jsonResponse req
           (SuccessMessage true (inserted_message (rowCount insertRow) name))
           None).
Proof. unfold route. intros ->. reflexivity. Qed.

Lemma route_unknown req u name :
  pathname u <> "" -> pathname u <> "/" ->
  pathname u <> "/read" -> pathname u <> "/add" ->
  route (Session := Session) client_query_call req u name
  = jsonResponse req (Text not_found_text) (Some 404).
Proof.
  intros H1 H2 H3 H4. unfold route.
  apply String.eqb_neq in H1, H2, H3, H4.
  rewrite H1, H2, H3, H4. reflexivity.
Qed.

(** The four cases of the dispatch. *)
Lemma pathname_cases (u : URL) :
  (pathname u = "" \/ pathname u = "/") \/ pathname u = "/read"
  \/ pathname u = "/add"
  \/ (pathname u <> "" /\ pathname u <> "/" /\ pathname u <> "/read"
      /\ pathname u <> "/add").
Proof.
  destruct (String.eqb_spec (pathname u) ""); [ now auto | ].
  destruct (String.eqb_spec (pathname u) "/"); [ now auto | ].
  destruct (String.eqb_spec (pathname u) "/read"); [ now auto | ].
  destruct (String.eqb_spec (pathname u) "/add"); [ now auto | ].
  right; right; right. now auto.
Qed.

(** The handler on each route, in one equation each. *)
Lemma handler_default req u s :
  new_URL (url req) base_url = Normal u ->
  pathname u = "" \/ pathname u = "/" ->
  handler req s
  = match client_query_call select_all [] s with
    | (Normal x, s') =>
        (Normal tt, s',
         client_query select_all [] :: response req (RowArray (rows x)) 200)
    | (Throw e, s') =>
        (Normal tt, s',
         client_query select_all [] :: response req (Text (error_text e)) 500)
    end.
Proof.
  intros Hu Hp. rewrite (requestHandler_parsed _ _ _ Hu).
  rewrite (route_default _ _ _ Hp).
  apply (try_one_statement req select_all [] (fun x => RowArray (rows x))).
Qed.

Lemma handler_read req u s :
  new_URL (url req) base_url = Normal u ->
  pathname u = "/read" ->
  handler req s
  = match client_query_call select_by_name [name_of u] s with
    | (Normal x, s') =>
        (Normal tt, s',
         client_query select_by_name [name_of u]
           :: response req (RowArray (rows x)) 200)
    | (Throw e, s') =>
        (Normal tt, s',
         client_query select_by_name [name_of u]
           :: response req (Text (error_text e)) 500)
    end.
Proof.
  intros Hu Hp. rewrite (requestHandler_parsed _ _ _ Hu).
  rewrite (route_read _ _ _ Hp).
  apply (try_one_statement req select_by_name [name_of u]
           (fun x => RowArray (rows x))).
Qed.

Lemma handler_add req u s :
  new_URL (url req) base_url = Normal u ->
  pathname u = "/add" ->
  handler req s
  = match client_query_call insert_name [name_of u] s with
    | (Normal x, s') =>
        (Normal tt, s',
         client_query insert_name [name_of u]
           :: response req
                (SuccessMessage true (inserted_message (rowCount x) (name_of u)))
                200)
    | (Throw e, s') =>
        (Normal tt, s',
         client_query insert_name [name_of u]
           :: response req (Text (error_text e)) 500)
    end.
Proof.
  intros Hu Hp. rewrite (requestHandler_parsed _ _ _ Hu).
  rewrite (route_add _ _ _ Hp).
  apply (try_one_statement req insert_name [name_of u]
           (fun x => SuccessMessage true
                       (inserted_message (rowCount x) (name_of u)))).
Qed.

Lemma handler_unknown req u s :
  new_URL (url req) base_url = Normal u ->
  pathname u <> "" -> pathname u <> "/" ->
  pathname u <> "/read" -> pathname u <> "/add" ->
  handler req s = (Normal tt, s, response req (Text not_found_text) 404).
Proof.
  intros Hu H1 H2 H3 H4. rewrite (requestHandler_parsed _ _ _ Hu).
  rewrite (route_unknown _ _ _ H1 H2 H3 H4). reflexivity.
Qed.

Lemma handler_unparsed req e s :
  new_URL (url req) base_url = Throw e ->
  handler req s = (Throw e, s, []).
Proof.
  intros Hu. unfold requestHandler, Async.bind, Async.eval.
  rewrite Hu. reflexivity.
Qed.

(** The handler reads the parsed URL through its path and its name only;
    the request itself appears in the log line alone. *)
Lemma handler_reads_path_and_name req req' u u' s :
  new_URL (url req) base_url = Normal u ->
  new_URL (url req') base_url = Normal u' ->
  pathname u = pathname u' ->
  name_of u = name_of u' ->
  fst (handler req s) = fst (handler req' s)
  /\ queries (snd (handler req s)) = queries (snd (handler req' s))
  /\ status_codes (snd (handler req s)) = status_codes (snd (handler req' s))
  /\ bodies (snd (handler req s)) = bodies (snd (handler req' s)).
Proof.
  intros Hu Hu' Hpath Hname.
  destruct (pathname_cases u) as [Hp | [Hp | [Hp | (H1 & H2 & H3 & H4)]]].
  - assert (Hp' : pathname u' = "" \/ pathname u' = "/")
      by (rewrite <- Hpath; exact Hp).
    rewrite (handler_default _ _ _ Hu Hp), (handler_default _ _ _ Hu' Hp').
    destruct (client_query_call select_all [] s) as [[x | e] s1];
      repeat split; reflexivity.
  - assert (Hp' : pathname u' = "/read") by congruence.
    rewrite (handler_read _ _ _ Hu Hp), (handler_read _ _ _ Hu' Hp'), <- Hname.
    destruct (client_query_call select_by_name [name_of u] s) as [[x | e] s1];
      repeat split; reflexivity.
  - assert (Hp' : pathname u' = "/add") by congruence.
    rewrite (handler_add _ _ _ Hu Hp), (handler_add _ _ _ Hu' Hp'), <- Hname.
    destruct (client_query_call insert_name [name_of u] s) as [[x | e] s1];
      repeat split; reflexivity.
  - rewrite Hpath in H1, H2, H3, H4.
    rewrite (handler_unknown _ _ _ Hu' H1 H2 H3 H4).
    rewrite <- Hpath in H1, H2, H3, H4.
    rewrite (handler_unknown _ _ _ Hu H1 H2 H3 H4).
    repeat split; reflexivity.
Qed.

(** Whatever the statement does, the handler calls it once and its
    promise is fulfilled. *)
Lemma handler_queries_at_most_one req s text values :
  In (text, values) (queries (snd (handler req s))) ->
  queries (snd (handler req s)) = [(text, values)].
Proof.
  destruct (new_URL (url req) base_url) as [u | e0] eqn:Hu.
  - destruct (pathname_cases u) as [Hp | [Hp | [Hp | (H1 & H2 & H3 & H4)]]].
    + rewrite (handler_default _ _ _ Hu Hp).
      destruct (client_query_call select_all [] s) as [[x | e] s'];
        cbn; intros [H | []]; now rewrite H.
    + rewrite (handler_read _ _ _ Hu Hp).
      destruct (client_query_call select_by_name [name_of u] s) as [[x | e] s'];
        cbn; intros [H | []]; now rewrite H.
    + rewrite (handler_add _ _ _ Hu Hp).
      destruct (client_query_call insert_name [name_of u] s) as [[x | e] s'];
        cbn; intros [H | []]; now rewrite H.
    + rewrite (handler_unknown _ _ _ Hu H1 H2 H3 H4). cbn. intros [].
  - rewrite (handler_unparsed _ _ _ Hu). cbn. intros [].
Qed.

(** C4. A request whose path is none of [''], ['/'], ['/read'], ['/add']
    sends no statement to the database, leaves the session (and so the
    table) as it was, and is answered 404 with the JSON string that names
    the missing route; the log line follows. *)
Theorem C4_unknown_path_is_404 :
  forall (req : IncomingMessage) (u : URL) (s : Session),
    new_URL (url req) base_url = Normal u ->
    pathname u <> "" -> pathname u <> "/" ->
    pathname u <> "/read" -> pathname u <> "/add" ->
    handler req s
    = (Normal tt, s,
       [res_writeHead 404 json_headers;
        res_end (Text "The requested route doesn't exist :(");
        console_log (method req) (url req) 404])
    /\ queries (snd (handler req s)) = [].
Proof.
  intros req u s Hu H1 H2 H3 H4.
  rewrite (handler_unknown _ _ _ Hu H1 H2 H3 H4). split; reflexivity.
Qed.

(** C5. When the statement that the handler sends throws, the exception
    is caught: the handler's promise is fulfilled, the answer is 500 with
    a JSON string that embeds the error's message, the session is the one
    the failed call left, the statement was sent once (no retry), and the
    server goes on with the requests that follow. *)
Theorem C5_failed_query_is_500 :
  forall (req : IncomingMessage) (s s' : Session) (text : string)
         (values : list string) (e : Exn),
    In (text, values) (queries (snd (handler req s))) ->
    client_query_call text values s = (Throw e, s') ->
    handler req s
    = (Normal tt, s',
       [client_query text values;
        res_writeHead 500 json_headers;
        res_end (Text ("Some error happened :(( -- (error: " ++ message e ++ ")"));
        console_log (method req) (url req) 500])
    /\ forall rest : list (Event External),
        serve new_URL client_query_call External external_step
          unhandled_rejections (Incoming req :: rest) s
        = (fst (serve new_URL client_query_call External external_step
                  unhandled_rejections rest s'),
           {| request := req; outcome := Normal tt;
              effects := client_query text values
                           :: response req (Text (error_text e)) 500 |}
             :: snd (serve new_URL client_query_call External external_step
                       unhandled_rejections rest s')).
Proof.
  intros req s s' text values e Hin Hthrow.
  assert (Hrun : handler req s
                 = (Normal tt, s',
                    client_query text values
                      :: response req (Text (error_text e)) 500)).
  { destruct (new_URL (url req) base_url) as [u | e0] eqn:Hu.
    - destruct (pathname_cases u) as [Hp | [Hp | [Hp | (H1 & H2 & H3 & H4)]]].
      + rewrite (handler_default _ _ _ Hu Hp) in Hin |- *.
        destruct (client_query_call select_all [] s) as [[x | e1] s1] eqn:Hq;
          cbn in Hin; destruct Hin as [Hin | []]; inversion Hin; subst;
          rewrite Hq in Hthrow; inversion Hthrow; subst; reflexivity.
      + rewrite (handler_read _ _ _ Hu Hp) in Hin |- *.
        destruct (client_query_call select_by_name [name_of u] s)
          as [[x | e1] s1] eqn:Hq;
          cbn in Hin; destruct Hin as [Hin | []]; inversion Hin; subst;
          rewrite Hq in Hthrow; inversion Hthrow; subst; reflexivity.
      + rewrite (handler_add _ _ _ Hu Hp) in Hin |- *.
        destruct (client_query_call insert_name [name_of u] s)
          as [[x | e1] s1] eqn:Hq;
          cbn in Hin; destruct Hin as [Hin | []]; inversion Hin; subst;
          rewrite Hq in Hthrow; inversion Hthrow; subst; reflexivity.
      + rewrite (handler_unknown _ _ _ Hu H1 H2 H3 H4) in Hin.
        cbn in Hin. destruct Hin.
    - rewrite (handler_unparsed _ _ _ Hu) in Hin. cbn in Hin. destruct Hin. }
  split.
  - exact Hrun.
  - intros rest. cbn [serve]. rewrite Hrun.
    destruct (serve _ _ _ _ _ rest s') as [s2 log]. reflexivity.
Qed.

(** C8. Two requests to [/read] (or two to [/add]) that differ in the
    name send the same statement text; the name of each is the only
    element of the array of bound values. This holds from any two
    sessions, whatever the calls return. *)
Theorem C8_name_is_bound_not_spliced :
  forall (req1 req2 : IncomingMessage) (u1 u2 : URL) (s1 s2 : Session),
    new_URL (url req1) base_url = Normal u1 ->
    new_URL (url req2) base_url = Normal u2 ->
    pathname u1 = pathname u2 ->
    pathname u1 = "/read" \/ pathname u1 = "/add" ->
    exists text : string,
      queries (snd (handler req1 s1)) = [(text, [name_of u1])]
      /\ queries (snd (handler req2 s2)) = [(text, [name_of u2])]
      /\ (pathname u1 = "/read" -> text = "SELECT * FROM my_table WHERE name = $1;")
      /\ (pathname u1 = "/add" -> text = "INSERT INTO my_table(name) VALUES($1);").
Proof.
  intros req1 req2 u1 u2 s1 s2 Hu1 Hu2 Hsame [Hp | Hp].
  - exists select_by_name.
    assert (Hp2 : pathname u2 = "/read") by congruence.
    rewrite (handler_read _ _ _ Hu1 Hp), (handler_read _ _ _ Hu2 Hp2).
    destruct (client_query_call select_by_name [name_of u1] s1) as [[x | e] s'];
      destruct (client_query_call select_by_name [name_of u2] s2)
        as [[x2 | e2] s2'];
      (repeat split; try reflexivity; rewrite Hp; discriminate).
  - exists insert_name.
    assert (Hp2 : pathname u2 = "/add") by congruence.
    rewrite (handler_add _ _ _ Hu1 Hp), (handler_add _ _ _ Hu2 Hp2).
    destruct (client_query_call insert_name [name_of u1] s1) as [[x | e] s'];
      destruct (client_query_call insert_name [name_of u2] s2)
        as [[x2 | e2] s2'];
      (repeat split; try reflexivity; rewrite Hp; discriminate).
Qed.

(** C10. The URL is parsed before the [try]: when [new URL] throws, the
    handler's promise is rejected with that exception and the handler has
    had no effect at all: no statement, no [writeHead], no [end] (so no
    500 answer) and no log line. *)
Theorem C10_unparsable_url_gets_no_response :
  forall (req : IncomingMessage) (s : Session) (e : Exn),
    new_URL (url req) base_url = Throw e ->
    handler req s = (Throw e, s, []).
Proof. intros req s e Hu. exact (handler_unparsed req e s Hu). Qed.

End RouterFacts.

(** ** The database session: what the three statements do *)

Lemma name_is_spec (v : string) (r : Row) :
  Pg.name_is v r = true <-> name r = Some v.
Proof.
  unfold Pg.name_is. destruct (name r) as [n | ].
  - rewrite String.eqb_eq. split; congruence.
  - split; discriminate.
Qed.

Lemma select_where_name_spec (v : string) (table : list Row) (r : Row) :
  In r (Pg.select_where_name v table) <-> In r table /\ name r = Some v.
Proof.
  unfold Pg.select_where_name. rewrite filter_In, name_is_spec. reflexivity.
Qed.

Lemma select_where_name_absent (v : string) (table : list Row) :
  (forall r, In r table -> name r <> Some v) ->
  Pg.select_where_name v table = [].
Proof.
  intros Habsent.
  destruct (Pg.select_where_name v table) as [ | r found] eqn:Hsel;
    [ reflexivity | ].
  assert (Hin : In r (Pg.select_where_name v table))
    by (rewrite Hsel; left; reflexivity).
  apply select_where_name_spec in Hin. destruct Hin as [Hin Hname].
  destruct (Habsent r Hin Hname).
Qed.

Lemma query_select_all_normal (s : Pg.Session) :
  is_normal (fst (Pg.query select_all [] s)) = true ->
  Pg.query select_all [] s = (Normal (Pg.selected (Pg.my_table s)), s).
Proof.
  unfold Pg.query. destruct (Pg.broken s); [ discriminate | reflexivity ].
Qed.

Lemma query_select_by_name_normal (v : string) (s : Pg.Session) :
  is_normal (fst (Pg.query select_by_name [v] s)) = true ->
  Pg.query select_by_name [v] s
  = (Normal (Pg.selected (Pg.select_where_name v (Pg.my_table s))), s).
Proof.
  unfold Pg.query. destruct (Pg.broken s); [ discriminate | ].
  cbn. destruct (Pg.has_nul v); [ discriminate | reflexivity ].
Qed.

Lemma query_insert_normal (v : string) (s : Pg.Session) :
  is_normal (fst (Pg.query insert_name [v] s)) = true ->
  Pg.query insert_name [v] s
  = (Normal {| rows := []; rowCount := 1 |}, Pg.insert v s).
Proof.
  unfold Pg.query. destruct (Pg.broken s); [ discriminate | ].
  cbn. destruct (Pg.has_nul v); [ discriminate | reflexivity ].
Qed.

(** A statement is accepted when the connection is up and the value has
    no zero byte. *)
Lemma query_insert_normal_iff (v : string) (s : Pg.Session) :
  is_normal (fst (Pg.query insert_name [v] s)) = true
  <-> Pg.broken s = None /\ Pg.has_nul v = false.
Proof.
  unfold Pg.query. destruct (Pg.broken s).
  - split; [ discriminate | intros [H _]; discriminate ].
  - cbn. destruct (Pg.has_nul v); split; try discriminate; auto.
    intros [_ H]; discriminate.
Qed.

Lemma query_select_by_name_normal_iff (v : string) (s : Pg.Session) :
  is_normal (fst (Pg.query select_by_name [v] s)) = true
  <-> Pg.broken s = None /\ Pg.has_nul v = false.
Proof.
  unfold Pg.query. destruct (Pg.broken s).
  - split; [ discriminate | intros [H _]; discriminate ].
  - cbn. destruct (Pg.has_nul v); split; try discriminate; auto.
    intros [_ H]; discriminate.
Qed.

(** The two SELECT statements leave the session as it is, whether they
    succeed or not. *)
Lemma query_select_all_session (values : list string) (s : Pg.Session) :
  snd (Pg.query select_all values s) = s.
Proof.
  unfold Pg.query. destruct (Pg.broken s); [ reflexivity | ].
  cbn. destruct values; reflexivity.
Qed.

Lemma query_select_by_name_session (values : list string) (s : Pg.Session) :
  snd (Pg.query select_by_name values s) = s.
Proof.
  unfold Pg.query. destruct (Pg.broken s); [ reflexivity | ].
  cbn. destruct values as [ | v [ | w rest]]; try reflexivity.
  destruct (Pg.has_nul v); reflexivity.
Qed.

(** A failed statement leaves the session as it is. *)
Lemma query_throw_session text values (s s' : Pg.Session) (e : Exn) :
  Pg.query text values s = (Throw e, s') -> s' = s.
Proof.
  unfold Pg.query. destruct (Pg.broken s); [ congruence | ].
  destruct (text =? select_all).
  { destruct values; congruence. }
  destruct (text =? select_by_name).
  { destruct values as [ | v [ | w rest]]; try congruence.
    destruct (Pg.has_nul v); congruence. }
  destruct (text =? insert_name).
  { destruct values as [ | v [ | w rest]]; try congruence.
    destruct (Pg.has_nul v); congruence. }
  congruence.
Qed.

Lemma external_step_table (ev : Pg.External) (s : Pg.Session) :
  Pg.my_table (Pg.external_step ev s) = Pg.my_table s.
Proof. destruct ev; reflexivity. Qed.

(** ** The handler over the database session *)

Section OnPostgres.
Variable new_URL : string -> string -> completion URL.
Variable unhandled_rejections : RejectionMode.

Local Abbreviation handle := (requestHandler new_URL Pg.query).
Local Abbreviation run :=
  (serve new_URL Pg.query Pg.External Pg.external_step unhandled_rejections).

(** The session that a handled request leaves. *)
Local Abbreviation session_after req s := (snd (fst (handle req s))).

Lemma add_answered_200 req u s :
  new_URL (url req) base_url = Normal u ->
  pathname u = "/add" ->
  In 200 (status_codes (snd (handle req s))) ->
  is_normal (fst (Pg.query insert_name [name_of u] s)) = true.
Proof.
  intros Hu Hp. rewrite (handler_add _ _ _ _ _ Hu Hp).
  destruct (Pg.query insert_name [name_of u] s) as [[x | e] s1].
  - reflexivity.
  - cbn. intros [H | []]. discriminate.
Qed.

(** C3. A request to [/add] whose name is [X] (given, or ["john"] by
    default), when the INSERT is accepted, adds exactly one row to the
    table, the name of that row is [X], and the answer is 200 with the
    object [{ success: true, message }]. *)
Theorem C3_add_inserts_one_row :
  forall (req : IncomingMessage) (u : URL) (s : Pg.Session) (X : string),
    new_URL (url req) base_url = Normal u ->
    pathname u = "/add" ->
    searchParams_get (searchParams u) "name" ?? "john" = X ->
    is_normal (fst (Pg.query "INSERT INTO my_table(name) VALUES($1);" [X] s)) = true ->
    exists row : Row,
      name row = Some X
      /\ Pg.my_table (session_after req s) = Pg.my_table s ++ [row]
      /\ handle req s
         = (Normal tt, session_after req s,
            [client_query "INSERT INTO my_table(name) VALUES($1);" [X];
             res_writeHead 200 json_headers;
             res_end (SuccessMessage true
                        ("Inserted 1 row with name '" ++ X ++ "'"));
             console_log (method req) (url req) 200]).
Proof.
  intros req u s X Hu Hp HX Hok. fold (name_of u) in HX. subst X.
  exists (Pg.new_row (name_of u) s).
  rewrite (handler_add _ _ _ _ _ Hu Hp).
  fold insert_name in Hok. rewrite (query_insert_normal _ _ Hok).
  repeat split.
Qed.

(** C1. After a request to [/add] with name [X] that succeeded (it was
    answered 200), a request to [/read] with the same name is answered
    200 with an array that is not empty and holds a row whose name is
    [X]. A name for which the INSERT succeeds is a valid one. *)
Theorem C1_add_then_read :
  forall (X : string) (req_add req_read : IncomingMessage) (u_add u_read : URL)
         (s : Pg.Session),
    new_URL (url req_add) base_url = Normal u_add ->
    pathname u_add = "/add" ->
    searchParams_get (searchParams u_add) "name" = Some X ->
    new_URL (url req_read) base_url = Normal u_read ->
    pathname u_read = "/read" ->
    searchParams_get (searchParams u_read) "name" = Some X ->
    In 200 (status_codes (snd (handle req_add s))) ->
    exists found : list Row,
      handle req_read (session_after req_add s)
      = (Normal tt, session_after req_add s,
         [client_query "SELECT * FROM my_table WHERE name = $1;" [X];
          res_writeHead 200 json_headers;
          res_end (RowArray found);
          console_log (method req_read) (url req_read) 200])
      /\ found <> []
      /\ exists r : Row, In r found /\ name r = Some X.
Proof.
  intros X req_add req_read u_add u_read s Ha Hpa Hna Hr Hpr Hnr H200.
  assert (HnameA : name_of u_add = X) by (unfold name_of; rewrite Hna; reflexivity).
  assert (HnameR : name_of u_read = X) by (unfold name_of; rewrite Hnr; reflexivity).
  pose proof (add_answered_200 _ _ _ Ha Hpa H200) as Hok.
  rewrite HnameA in Hok.
  pose proof (proj1 (query_insert_normal_iff _ _) Hok) as [Hup Hnul].
  rewrite (handler_add _ _ _ _ _ Ha Hpa), HnameA.
  rewrite (query_insert_normal _ _ Hok). cbn [fst snd].
  assert (Hok' : is_normal (fst (Pg.query select_by_name [X] (Pg.insert X s))) = true).
  { apply query_select_by_name_normal_iff. split; [ exact Hup | exact Hnul ]. }
  rewrite (handler_read _ _ _ _ _ Hr Hpr), HnameR.
  rewrite (query_select_by_name_normal _ _ Hok').
  assert (Hin : In (Pg.new_row X s)
                   (Pg.select_where_name X (Pg.my_table (Pg.insert X s)))).
  { apply select_where_name_spec. split; [ | reflexivity ].
    cbn. apply in_or_app. right. left. reflexivity. }
  exists (Pg.select_where_name X (Pg.my_table (Pg.insert X s))).
  split; [ reflexivity | ]. split.
  - intros Hnil. rewrite Hnil in Hin. destruct Hin.
  - exists (Pg.new_row X s). split; [ exact Hin | reflexivity ].
Qed.

(** C6. A request whose URL has no [name] parameter is handled as the
    request with the same path and [name=john] is: same outcome, same
    session afterwards, same statement with the same bound values, same
    status code and same body. On [/add] the row added is named
    ["john"]; on [/read] the rows returned are those named ["john"]. *)
Theorem C6_missing_name_is_john :
  forall (req : IncomingMessage) (u : URL) (s : Pg.Session),
    new_URL (url req) base_url = Normal u ->
    searchParams_get (searchParams u) "name" = None ->
    (forall (req' : IncomingMessage) (u' : URL),
        new_URL (url req') base_url = Normal u' ->
        pathname u' = pathname u ->
        searchParams_get (searchParams u') "name" = Some "john" ->
        fst (handle req s) = fst (handle req' s)
        /\ queries (snd (handle req s)) = queries (snd (handle req' s))
        /\ status_codes (snd (handle req s)) = status_codes (snd (handle req' s))
        /\ bodies (snd (handle req s)) = bodies (snd (handle req' s)))
    /\ (pathname u = "/add" ->
        queries (snd (handle req s))
        = [("INSERT INTO my_table(name) VALUES($1);", ["john"])]
        /\ (is_normal (fst (Pg.query insert_name ["john"] s)) = true ->
            Pg.my_table (session_after req s)
            = Pg.my_table s ++ [Pg.new_row "john" s]
            /\ bodies (snd (handle req s))
               = [SuccessMessage true "Inserted 1 row with name 'john'"]))
    /\ (pathname u = "/read" ->
        queries (snd (handle req s))
        = [("SELECT * FROM my_table WHERE name = $1;", ["john"])]
        /\ (is_normal (fst (Pg.query select_by_name ["john"] s)) = true ->
            session_after req s = s
            /\ bodies (snd (handle req s))
               = [RowArray (Pg.select_where_name "john" (Pg.my_table s))])).
Proof.
  intros req u s Hu Hnone.
  assert (Hname : name_of u = "john") by (unfold name_of; rewrite Hnone; reflexivity).
  split; [ | split ].
  - intros req' u' Hu' Hpath Hjohn.
    apply (handler_reads_path_and_name new_URL Pg.query req req' u u' s Hu Hu').
    + symmetry. exact Hpath.
    + rewrite Hname. unfold name_of. rewrite Hjohn. reflexivity.
  - intros Hp. rewrite (handler_add _ _ _ _ _ Hu Hp), Hname. split.
    + destruct (Pg.query insert_name ["john"] s) as [[x | e] s1]; reflexivity.
    + intros Hok. rewrite (query_insert_normal _ _ Hok). split; reflexivity.
  - intros Hp. rewrite (handler_read _ _ _ _ _ Hu Hp), Hname. split.
    + destruct (Pg.query select_by_name ["john"] s) as [[x | e] s1]; reflexivity.
    + intros Hok. rewrite (query_select_by_name_normal _ _ Hok).
      split; reflexivity.
Qed.

(** C9. When the [name] parameter is present with the empty string as
    its value, the default is not applied: the value bound to the
    statement is the empty string. On [/add] the accepted INSERT adds a
    row whose name is the empty string, on [/read] the accepted SELECT
    returns the rows whose name is the empty string. *)
Theorem C9_empty_name_is_kept :
  forall (req : IncomingMessage) (u : URL) (s : Pg.Session),
    new_URL (url req) base_url = Normal u ->
    searchParams_get (searchParams u) "name" = Some "" ->
    searchParams_get (searchParams u) "name" ?? "john" = ""
    /\ (pathname u = "/add" ->
        queries (snd (handle req s))
        = [("INSERT INTO my_table(name) VALUES($1);", [""])]
        /\ (is_normal (fst (Pg.query insert_name [""] s)) = true ->
            exists row : Row,
              name row = Some ""
              /\ Pg.my_table (session_after req s) = Pg.my_table s ++ [row]
              /\ bodies (snd (handle req s))
                 = [SuccessMessage true "Inserted 1 row with name ''"]))
    /\ (pathname u = "/read" ->
        queries (snd (handle req s))
        = [("SELECT * FROM my_table WHERE name = $1;", [""])]
        /\ (is_normal (fst (Pg.query select_by_name [""] s)) = true ->
            bodies (snd (handle req s))
            = [RowArray (Pg.select_where_name "" (Pg.my_table s))]
            /\ forall r, In r (Pg.select_where_name "" (Pg.my_table s))
                         <-> In r (Pg.my_table s) /\ name r = Some "")).
Proof.
  intros req u s Hu Hempty.
  assert (Hname : name_of u = "") by (unfold name_of; rewrite Hempty; reflexivity).
  split; [ exact Hname | split ].
  - intros Hp. rewrite (handler_add _ _ _ _ _ Hu Hp), Hname. split.
    + destruct (Pg.query insert_name [""] s) as [[x | e] s1]; reflexivity.
    + intros Hok. rewrite (query_insert_normal _ _ Hok).
      exists (Pg.new_row "" s). repeat split.
  - intros Hp. rewrite (handler_read _ _ _ _ _ Hu Hp), Hname. split.
    + destruct (Pg.query select_by_name [""] s) as [[x | e] s1]; reflexivity.
    + intros Hok. rewrite (query_select_by_name_normal _ _ Hok).
      split; [ reflexivity | ]. intros r. apply select_where_name_spec.
Qed.

(** *** The table over a run of the server *)

(** One handled request adds one row when it is a successful [/add], of
    the name it was given, and none otherwise. *)
Lemma handle_table_step req s :
  exists added : list Row,
    Pg.my_table (session_after req s) = Pg.my_table s ++ added
    /\ map name added
       = map Some (inserted_names new_URL [entry_of req (handle req s)]).
Proof.
  unfold inserted_names, inserted_name, entry_of, successful_add.
  cbn [flat_map request effects]. rewrite app_nil_r.
  destruct (new_URL (url req) base_url) as [u | e0] eqn:Hu.
  - destruct (pathname_cases u) as [Hp | [Hp | [Hp | (H1 & H2 & H3 & H4)]]].
    + rewrite (handler_default _ _ _ _ _ Hu Hp).
      pose proof (query_select_all_session [] s) as Hs.
      assert (Hno : (pathname u =? "/add") = false)
        by (destruct Hp as [-> | ->]; reflexivity).
      rewrite Hno.
      destruct (Pg.query select_all [] s) as [[x | e] s1]; cbn in Hs; subst s1;
        exists []; rewrite app_nil_r; split; reflexivity.
    + rewrite (handler_read _ _ _ _ _ Hu Hp).
      pose proof (query_select_by_name_session [name_of u] s) as Hs.
      rewrite Hp.
      destruct (Pg.query select_by_name [name_of u] s) as [[x | e] s1];
        cbn in Hs; subst s1;
        exists []; rewrite app_nil_r; split; reflexivity.
    + rewrite (handler_add _ _ _ _ _ Hu Hp). rewrite Hp.
      destruct (Pg.query insert_name [name_of u] s) as [[x | e] s1] eqn:Hq.
      * assert (Hok : is_normal (fst (Pg.query insert_name [name_of u] s)) = true)
          by (rewrite Hq; reflexivity).
        rewrite (query_insert_normal _ _ Hok) in Hq. inversion Hq; subst.
        exists [Pg.new_row (name_of u) s]. split; reflexivity.
      * apply query_throw_session in Hq. subst s1.
        exists []. rewrite app_nil_r. split; reflexivity.
    + rewrite (handler_unknown _ _ _ _ _ Hu H1 H2 H3 H4).
      apply String.eqb_neq in H4. rewrite H4.
      exists []. rewrite app_nil_r. split; reflexivity.
  - rewrite (handler_unparsed _ _ _ _ _ Hu).
    exists []. rewrite app_nil_r. split; reflexivity.
Qed.

Lemma length_inserted_names (log : list Handled) :
  length (inserted_names new_URL log) = count_successful_adds new_URL log.
Proof.
  unfold inserted_names, count_successful_adds.
  induction log as [ | h log IH]; [ reflexivity | ].
  cbn [flat_map filter]. rewrite length_app, IH.
  unfold inserted_name, successful_add.
  destruct (new_URL (url (request h)) base_url) as [u | e]; [ | reflexivity ].
  destruct ((pathname u =? "/add")
            && existsb (Nat.eqb 200) (status_codes (effects h)));
    reflexivity.
Qed.

(** Over a run, the table is the initial one followed by one row per
    successful [/add], named as that request asked. *)
Lemma run_table (events : list (Event Pg.External)) :
  forall s0 : Pg.Session,
    exists added : list Row,
      Pg.my_table (fst (run events s0)) = Pg.my_table s0 ++ added
      /\ map name added
         = map Some (inserted_names new_URL (snd (run events s0))).
Proof.
  induction events as [ | ev rest IH]; intros s0.
  - exists []. rewrite app_nil_r. split; reflexivity.
  - destruct ev as [req | ev].
    + destruct (handle_table_step req s0) as (added1 & Htab1 & Hnames1).
      cbn [serve]. unfold entry_of in Hnames1.
      destruct (handle req s0) as [[r s1] t] eqn:Hrun.
      cbn [fst snd] in Htab1, Hnames1.
      assert (Hgo :
        exists added,
          Pg.my_table
            (fst (let (s2, log) := run rest s1 in
                  (s2, {| request := req; outcome := r; effects := t |} :: log)))
          = Pg.my_table s0 ++ added
          /\ map name added
             = map Some
                 (inserted_names new_URL
                    (snd (let (s2, log) := run rest s1 in
                          (s2, {| request := req; outcome := r; effects := t |}
                                 :: log))))).
      { destruct (IH s1) as (added2 & Htab2 & Hnames2).
        destruct (run rest s1) as [s2 log]. cbn [fst snd] in *.
        exists (added1 ++ added2). split.
        - rewrite Htab2, Htab1, app_assoc. reflexivity.
        - unfold inserted_names in *. cbn [flat_map] in *.
          rewrite app_nil_r in Hnames1.
          rewrite !map_app, Hnames1, Hnames2. reflexivity. }
      destruct r as [[] | e]; [ exact Hgo | ].
      destruct unhandled_rejections; [ | exact Hgo ].
      exists added1. split; [ exact Htab1 | exact Hnames1 ].
    + cbn [serve]. destruct (IH (Pg.external_step ev s0)) as (added & Htab & Hn).
      exists added. rewrite external_step_table in Htab.
      split; [ exact Htab | exact Hn ].
Qed.

Lemma run_table_length (events : list (Event Pg.External)) (s0 : Pg.Session) :
  length (Pg.my_table (fst (run events s0)))
  = length (Pg.my_table s0)
    + count_successful_adds new_URL (snd (run events s0)).
Proof.
  destruct (run_table events s0) as (added & Htab & Hnames).
  rewrite Htab, length_app, <- length_inserted_names.
  rewrite <- (length_map name added), Hnames, length_map. reflexivity.
Qed.

(** A name that the table did not hold at the start and that no
    successful [/add] of the run inserted is the name of no row. *)
Lemma run_never_inserted (events : list (Event Pg.External))
    (s0 : Pg.Session) (Y : string) :
  (forall r, In r (Pg.my_table s0) -> name r <> Some Y) ->
  ~ In Y (inserted_names new_URL (snd (run events s0))) ->
  forall r, In r (Pg.my_table (fst (run events s0))) -> name r <> Some Y.
Proof.
  intros Hstart Hnever r Hin HY.
  destruct (run_table events s0) as (added & Htab & Hnames).
  rewrite Htab in Hin. apply in_app_or in Hin. destruct Hin as [Hin | Hin].
  - exact (Hstart r Hin HY).
  - apply (in_map name) in Hin. rewrite Hnames, HY in Hin.
    apply in_map_iff in Hin. destruct Hin as (X & HX & HinX).
    inversion HX; subst X. exact (Hnever HinX).
Qed.

(** C2. A request whose path is ['/'] or empty, when the SELECT is
    accepted, is answered 200 with the array of all rows of the table. A
    request to [/read], when the SELECT is accepted, is answered 200 with
    the array of exactly the rows whose name is the parameter, in table
    order; when no row has that name the array is empty and the code is
    still 200. In particular, after any run of the server from a table
    that did not hold the name [Y], in which no successful [/add]
    inserted [Y], [/read] for [Y] is answered 200 with the empty array.
    Neither route changes the session. *)
Theorem C2_reads_answer_with_rows :
  forall (req : IncomingMessage) (u : URL) (s : Pg.Session),
    new_URL (url req) base_url = Normal u ->
    (pathname u = "" \/ pathname u = "/" ->
     is_normal (fst (Pg.query "SELECT * FROM my_table;" [] s)) = true ->
     handle req s
     = (Normal tt, s,
        [client_query "SELECT * FROM my_table;" [];
         res_writeHead 200 json_headers;
         res_end (RowArray (Pg.my_table s));
         console_log (method req) (url req) 200]))
    /\ (forall Y : string,
         pathname u = "/read" ->
         searchParams_get (searchParams u) "name" ?? "john" = Y ->
         is_normal
           (fst (Pg.query "SELECT * FROM my_table WHERE name = $1;" [Y] s)) = true ->
         exists found : list Row,
           handle req s
           = (Normal tt, s,
              [client_query "SELECT * FROM my_table WHERE name = $1;" [Y];
               res_writeHead 200 json_headers;
               res_end (RowArray found);
               console_log (method req) (url req) 200])
           /\ found = filter (fun r => match name r with
                                       | Some n => n =? Y
                                       | None => false
                                       end) (Pg.my_table s)
           /\ (forall r, In r found <-> In r (Pg.my_table s) /\ name r = Some Y)
           /\ ((forall r, In r (Pg.my_table s) -> name r <> Some Y) ->
               found = []))
    /\ (forall (events : list (Event Pg.External)) (s0 : Pg.Session)
               (Y : string),
         s = fst (run events s0) ->
         (forall r, In r (Pg.my_table s0) -> name r <> Some Y) ->
         ~ In Y (inserted_names new_URL (snd (run events s0))) ->
         pathname u = "/read" ->
         searchParams_get (searchParams u) "name" ?? "john" = Y ->
         is_normal
           (fst (Pg.query "SELECT * FROM my_table WHERE name = $1;" [Y] s)) = true ->
         handle req s
         = (Normal tt, s,
            [client_query "SELECT * FROM my_table WHERE name = $1;" [Y];
             res_writeHead 200 json_headers;
             res_end (RowArray []);
             console_log (method req) (url req) 200])).
Proof.
  intros req u s Hu. split; [ | split ].
  - intros Hp Hok. rewrite (handler_default _ _ _ _ _ Hu Hp).
    fold select_all in Hok. rewrite (query_select_all_normal _ Hok).
    reflexivity.
  - intros Y Hp HY Hok. fold (name_of u) in HY. subst Y.
    exists (Pg.select_where_name (name_of u) (Pg.my_table s)).
    rewrite (handler_read _ _ _ _ _ Hu Hp).
    fold select_by_name in Hok. rewrite (query_select_by_name_normal _ _ Hok).
    split; [ reflexivity | ]. split; [ reflexivity | ]. split.
    + intros r. apply select_where_name_spec.
    + apply select_where_name_absent.
  - intros events s0 Y Hs Hstart Hnever Hp HY Hok.
    fold (name_of u) in HY. subst Y.
    rewrite (handler_read _ _ _ _ _ Hu Hp).
    fold select_by_name in Hok. rewrite (query_select_by_name_normal _ _ Hok).
    rewrite (select_where_name_absent (name_of u) (Pg.my_table s)).
    + reflexivity.
    + rewrite Hs. apply run_never_inserted; assumption.
Qed.

(** C7. No route updates or deletes a row: every handled request leaves
    the table as it was followed by the rows it added, and requests to
    ['/'] and [/read] add none. Over any run of the server, with the
    connection dropping and time passing in between, the table is the
    initial one followed by one row per successful [/add]; so the array
    that ['/'] then returns has at least as many rows as there were
    successful [/add] calls. *)
Theorem C7_table_only_grows :
  forall (events : list (Event Pg.External)) (s0 : Pg.Session),
    (forall (req : IncomingMessage) (s : Pg.Session),
        exists added : list Row,
          Pg.my_table (session_after req s) = Pg.my_table s ++ added)
    /\ (forall (req : IncomingMessage) (u : URL) (s : Pg.Session),
           new_URL (url req) base_url = Normal u ->
           pathname u = "" \/ pathname u = "/" \/ pathname u = "/read" ->
           Pg.my_table (session_after req s) = Pg.my_table s)
    /\ (exists added : list Row,
           Pg.my_table (fst (run events s0)) = Pg.my_table s0 ++ added
           /\ length added
              = count_successful_adds new_URL (snd (run events s0)))
    /\ (forall (req : IncomingMessage) (u : URL) (found : list Row),
           new_URL (url req) base_url = Normal u ->
           pathname u = "" \/ pathname u = "/" ->
           In (res_end (RowArray found)) (snd (handle req (fst (run events s0)))) ->
           count_successful_adds new_URL (snd (run events s0)) <= length found).
Proof.
  intros events s0. split; [ | split; [ | split ] ].
  - intros req s. destruct (handle_table_step req s) as (added & Htab & _).
    exists added. exact Htab.
  - intros req u s Hu [Hp | [Hp | Hp]].
    + rewrite (handler_default _ _ _ _ _ Hu (or_introl Hp)).
      pose proof (query_select_all_session [] s) as Hs.
      destruct (Pg.query select_all [] s) as [[x | e] s1]; cbn in Hs; subst s1;
        reflexivity.
    + rewrite (handler_default _ _ _ _ _ Hu (or_intror Hp)).
      pose proof (query_select_all_session [] s) as Hs.
      destruct (Pg.query select_all [] s) as [[x | e] s1]; cbn in Hs; subst s1;
        reflexivity.
    + rewrite (handler_read _ _ _ _ _ Hu Hp).
      pose proof (query_select_by_name_session [name_of u] s) as Hs.
      destruct (Pg.query select_by_name [name_of u] s) as [[x | e] s1];
        cbn in Hs; subst s1; reflexivity.
  - destruct (run_table events s0) as (added & Htab & Hnames).
    exists added. split; [ exact Htab | ].
    rewrite <- length_inserted_names, <- (length_map name added), Hnames.
    apply length_map.
  - intros req u found Hu Hp Hin.
    pose proof (run_table_length events s0) as Hlen.
    rewrite (handler_default _ _ _ _ _ Hu Hp) in Hin.
    destruct (Pg.query select_all [] (fst (run events s0))) as [[x | e] s1] eqn:Hq.
    + assert (Hok : is_normal
                      (fst (Pg.query select_all [] (fst (run events s0)))) = true)
        by (rewrite Hq; reflexivity).
      rewrite (query_select_all_normal _ Hok) in Hq. inversion Hq; subst x.
      cbn in Hin.
      destruct Hin as [Hin | [Hin | [Hin | [Hin | []]]]]; try discriminate.
      inversion Hin; subst found.
      rewrite Hlen. lia.
    + cbn in Hin.
      destruct Hin as [Hin | [Hin | [Hin | [Hin | []]]]]; discriminate.
Qed.

End OnPostgres.

(** ** The theorems at concrete requests *)

Lemma C4_unknown_path_is_404_witness :
  requestHandler OriginForm.new_URL Pg.query (GET "/delete") three_rows
  = (Normal tt, three_rows,
     [res_writeHead 404 json_headers;
      res_end (Text "The requested route doesn't exist :(");
      console_log "GET" "/delete" 404])
  /\ queries (snd (requestHandler OriginForm.new_URL Pg.query
                     (GET "/delete") three_rows)) = [].
Proof.
  apply (C4_unknown_path_is_404 OriginForm.new_URL Pg.query (GET "/delete")
           {| pathname := "/delete"; searchParams := [] |} three_rows).
  - reflexivity.
  - discriminate.
  - discriminate.
  - discriminate.
  - discriminate.
Defined.

Lemma C5_failed_query_is_500_witness :
  requestHandler OriginForm.new_URL Pg.query (GET "/add?name=bob") disconnected
  = (Normal tt, disconnected,
     [client_query "INSERT INTO my_table(name) VALUES($1);" ["bob"];
      res_writeHead 500 json_headers;
      res_end (Text "Some error happened :(( -- (error: Connection terminated unexpectedly)");
      console_log "GET" "/add?name=bob" 500])
  /\ map (fun h => status_codes (effects h))
       (snd (serve OriginForm.new_URL Pg.query Pg.External Pg.external_step
               rejections_throw
               [Incoming (GET "/add?name=bob");
                Incoming (GET "/nowhere")]
               disconnected))
     = [[500]; [404]].
Proof.
  destruct (C5_failed_query_is_500 OriginForm.new_URL Pg.query
              Pg.External Pg.external_step rejections_throw
              (GET "/add?name=bob") disconnected disconnected
              insert_name ["bob"]
              {| message := "Connection terminated unexpectedly" |})
    as [Hrun Hserve].
  - vm_compute. left. reflexivity.
  - reflexivity.
  - split.
    + exact Hrun.
    + rewrite Hserve. reflexivity.
Defined.

Lemma C8_name_is_bound_not_spliced_witness :
  exists text : string,
    queries (snd (requestHandler OriginForm.new_URL Pg.query
                    (GET "/read?name=bob") three_rows)) = [(text, ["bob"])]
    /\ queries (snd (requestHandler OriginForm.new_URL Pg.query
                       (GET "/read?name=john") disconnected))
       = [(text, ["john"])]
    /\ ("/read" = "/read" -> text = "SELECT * FROM my_table WHERE name = $1;")
    /\ ("/read" = "/add" -> text = "INSERT INTO my_table(name) VALUES($1);").
Proof.
  apply (C8_name_is_bound_not_spliced OriginForm.new_URL Pg.query
           (GET "/read?name=bob") (GET "/read?name=john")
           {| pathname := "/read"; searchParams := [("name", "bob")] |}
           {| pathname := "/read"; searchParams := [("name", "john")] |}
           three_rows disconnected).
  - reflexivity.
  - reflexivity.
  - reflexivity.
  - left. reflexivity.
Defined.

Lemma C10_unparsable_url_gets_no_response_witness :
  requestHandler OriginForm.new_URL Pg.query (GET "//") three_rows
  = (Throw {| message := "Invalid URL" |}, three_rows, []).
Proof.
  apply (C10_unparsable_url_gets_no_response OriginForm.new_URL Pg.query
           (GET "//") three_rows {| message := "Invalid URL" |}).
  reflexivity.
Defined.

Lemma C3_add_inserts_one_row_witness :
  exists row : Row,
    name row = Some "bob"
    /\ Pg.my_table (snd (fst (requestHandler OriginForm.new_URL Pg.query
                                (GET "/add?name=bob") three_rows)))
       = Pg.my_table three_rows ++ [row]
    /\ requestHandler OriginForm.new_URL Pg.query (GET "/add?name=bob") three_rows
       = (Normal tt,
          snd (fst (requestHandler OriginForm.new_URL Pg.query
                      (GET "/add?name=bob") three_rows)),
          [client_query "INSERT INTO my_table(name) VALUES($1);" ["bob"];
           res_writeHead 200 json_headers;
           res_end (SuccessMessage true "Inserted 1 row with name 'bob'");
           console_log "GET" "/add?name=bob" 200]).
Proof.
  apply (C3_add_inserts_one_row OriginForm.new_URL (GET "/add?name=bob")
           {| pathname := "/add"; searchParams := [("name", "bob")] |}
           three_rows "bob").
  - reflexivity.
  - reflexivity.
  - reflexivity.
  - reflexivity.
Defined.

Lemma C2_reads_answer_with_rows_witness :
  requestHandler OriginForm.new_URL Pg.query (GET "/") three_rows
  = (Normal tt, three_rows,
     [client_query "SELECT * FROM my_table;" [];
      res_writeHead 200 json_headers;
      res_end (RowArray (Pg.my_table three_rows));
      console_log "GET" "/" 200])
  /\ (exists found : list Row,
      requestHandler OriginForm.new_URL Pg.query (GET "/read?name=alice") three_rows
      = (Normal tt, three_rows,
         [client_query "SELECT * FROM my_table WHERE name = $1;" ["alice"];
          res_writeHead 200 json_headers;
          res_end (RowArray found);
          console_log "GET" "/read?name=alice" 200])
      /\ found = [])
  /\ requestHandler OriginForm.new_URL Pg.query (GET "/read?name=carol")
       (fst (serve OriginForm.new_URL Pg.query Pg.External Pg.external_step
               rejections_warn busy_morning Pg.fresh))
     = (Normal tt,
        fst (serve OriginForm.new_URL Pg.query Pg.External Pg.external_step
               rejections_warn busy_morning Pg.fresh),
        [client_query "SELECT * FROM my_table WHERE name = $1;" ["carol"];
         res_writeHead 200 json_headers;
         res_end (RowArray []);
         console_log "GET" "/read?name=carol" 200]).
Proof.
  split; [ | split ].
  - apply (proj1 (C2_reads_answer_with_rows OriginForm.new_URL rejections_warn (GET "/")
                   {| pathname := "/"; searchParams := [] |} three_rows
                   eq_refl)).
    + right. reflexivity.
    + reflexivity.
  - destruct (proj1 (proj2 (C2_reads_answer_with_rows OriginForm.new_URL
                              rejections_warn (GET "/read?name=alice")
                              {| pathname := "/read";
                                 searchParams := [("name", "alice")] |}
                              three_rows eq_refl))
                "alice" eq_refl eq_refl eq_refl)
      as (found & Hrun & _ & _ & Habsent).
    exists found. split.
    + exact Hrun.
    + apply Habsent. intros r Hin.
      cbn in Hin. destruct Hin as [<- | [<- | [<- | []]]]; discriminate.
  - apply (proj2 (proj2 (C2_reads_answer_with_rows OriginForm.new_URL
                           rejections_warn (GET "/read?name=carol")
                           {| pathname := "/read";
                              searchParams := [("name", "carol")] |}
                           (fst (serve OriginForm.new_URL Pg.query Pg.External
                                   Pg.external_step rejections_warn
                                   busy_morning Pg.fresh))
                           eq_refl))
             busy_morning Pg.fresh "carol").
    + reflexivity.
    + intros r [].
    + vm_compute. intros [H | [H | [H | []]]]; discriminate.
    + reflexivity.
    + reflexivity.
    + reflexivity.
Defined.

Lemma C1_add_then_read_witness :
  exists found : list Row,
    requestHandler OriginForm.new_URL Pg.query (GET "/read?name=bob")
      (snd (fst (requestHandler OriginForm.new_URL Pg.query
                   (GET "/add?name=bob") Pg.fresh)))
    = (Normal tt,
       snd (fst (requestHandler OriginForm.new_URL Pg.query
                   (GET "/add?name=bob") Pg.fresh)),
       [client_query "SELECT * FROM my_table WHERE name = $1;" ["bob"];
        res_writeHead 200 json_headers;
        res_end (RowArray found);
        console_log "GET" "/read?name=bob" 200])
    /\ found <> []
    /\ exists r : Row, In r found /\ name r = Some "bob".
Proof.
  apply (C1_add_then_read OriginForm.new_URL "bob"
           (GET "/add?name=bob") (GET "/read?name=bob")
           {| pathname := "/add"; searchParams := [("name", "bob")] |}
           {| pathname := "/read"; searchParams := [("name", "bob")] |}
           Pg.fresh).
  - reflexivity.
  - reflexivity.
  - reflexivity.
  - reflexivity.
  - reflexivity.
  - reflexivity.
  - vm_compute. left. reflexivity.
Defined.

Lemma C6_missing_name_is_john_witness :
  fst (requestHandler OriginForm.new_URL Pg.query (GET "/add") three_rows)
  = fst (requestHandler OriginForm.new_URL Pg.query (GET "/add?name=john") three_rows)
  /\ Pg.my_table (snd (fst (requestHandler OriginForm.new_URL Pg.query
                              (GET "/add") three_rows)))
     = Pg.my_table three_rows ++ [Pg.new_row "john" three_rows]
  /\ bodies (snd (requestHandler OriginForm.new_URL Pg.query (GET "/read") three_rows))
     = [RowArray (Pg.select_where_name "john" (Pg.my_table three_rows))].
Proof.
  destruct (C6_missing_name_is_john OriginForm.new_URL (GET "/add")
              {| pathname := "/add"; searchParams := [] |} three_rows
              eq_refl eq_refl) as (Hsame & Hadd & _).
  destruct (C6_missing_name_is_john OriginForm.new_URL (GET "/read")
              {| pathname := "/read"; searchParams := [] |} three_rows
              eq_refl eq_refl) as (_ & _ & Hread).
  split; [ | split ].
  - apply (Hsame (GET "/add?name=john")
             {| pathname := "/add"; searchParams := [("name", "john")] |}
             eq_refl eq_refl eq_refl).
  - apply (proj2 (Hadd eq_refl) eq_refl).
  - apply (proj2 (Hread eq_refl) eq_refl).
Defined.

Lemma C9_empty_name_is_kept_witness :
  queries (snd (requestHandler OriginForm.new_URL Pg.query
                  (GET "/add?name=") three_rows))
  = [("INSERT INTO my_table(name) VALUES($1);", [""])]
  /\ exists row : Row,
      name row = Some ""
      /\ Pg.my_table (snd (fst (requestHandler OriginForm.new_URL Pg.query
                                  (GET "/add?name=") three_rows)))
         = Pg.my_table three_rows ++ [row]
      /\ bodies (snd (requestHandler OriginForm.new_URL Pg.query
                        (GET "/add?name=") three_rows))
         = [SuccessMessage true "Inserted 1 row with name ''"].
Proof.
  destruct (C9_empty_name_is_kept OriginForm.new_URL (GET "/add?name=")
              {| pathname := "/add"; searchParams := [("name", "")] |}
              three_rows eq_refl eq_refl) as (_ & Hadd & _).
  destruct (Hadd eq_refl) as [Hq Hins].
  split.
  - exact Hq.
  - apply Hins. reflexivity.
Defined.

Lemma C7_table_only_grows_witness :
  count_successful_adds OriginForm.new_URL
    (snd (serve OriginForm.new_URL Pg.query Pg.External Pg.external_step
            rejections_warn busy_morning Pg.fresh)) = 3
  /\ exists found : list Row,
      In (res_end (RowArray found))
         (snd (requestHandler OriginForm.new_URL Pg.query (GET "/")
                 (fst (serve OriginForm.new_URL Pg.query Pg.External
                         Pg.external_step rejections_warn busy_morning
                         Pg.fresh))))
      /\ 3 <= length found.
Proof.
  split.
  - reflexivity.
  - eexists. split.
    + vm_compute. right. right. left. reflexivity.
    + apply (proj2 (proj2 (proj2
               (C7_table_only_grows OriginForm.new_URL rejections_warn
                  busy_morning Pg.fresh)))
               (GET "/") {| pathname := "/"; searchParams := [] |}).
      * reflexivity.
      * right. reflexivity.
      * vm_compute. right. right. left. reflexivity.
Defined.

(** ** More on the handler, over any URL constructor and any session *)

Section RouterMore.
Context {Session : Type}.
Variable new_URL : string -> string -> completion URL.
Variable client_query_call :
  string -> list string -> Session -> completion QueryResult * Session.
Variable External : Type.
Variable external_step : External -> Session -> Session.
Variable unhandled_rejections : RejectionMode.

Local Abbreviation handler := (requestHandler new_URL client_query_call).
Local Abbreviation serving :=
  (serve new_URL client_query_call External external_step unhandled_rejections).

(** The trace of a parsed request, route by route. *)
Lemma handler_trace_cases req u s :
  new_URL (url req) base_url = Normal u ->
  fst (fst (handler req s)) = Normal tt
  /\ ((exists text values x,
          fst (client_query_call text values s) = Normal x
          /\ queries (snd (handler req s)) = [(text, values)]
          /\ exists body,
              snd (handler req s)
              = client_query text values :: response req body 200
              /\ ((exists found, body = RowArray found)
                  \/ exists msg, body = SuccessMessage true msg))
      \/ (exists text values e,
             fst (client_query_call text values s) = Throw e
             /\ snd (handler req s)
                = client_query text values
                    :: response req (Text (error_text e)) 500)
      \/ snd (handler req s) = response req (Text not_found_text) 404).
Proof.
  intros Hu.
  destruct (pathname_cases u) as [Hp | [Hp | [Hp | (H1 & H2 & H3 & H4)]]].
  - rewrite (handler_default _ _ _ _ _ Hu Hp).
    destruct (client_query_call select_all [] s) as [[x | e] s1] eqn:Hq.
    + split; [ reflexivity | left ].
      exists select_all, [], x. rewrite Hq.
      repeat split. exists (RowArray (rows x)). split; [ reflexivity | ].
      left. exists (rows x). reflexivity.
    + split; [ reflexivity | right; left ].
      exists select_all, [], e. rewrite Hq. split; reflexivity.
  - rewrite (handler_read _ _ _ _ _ Hu Hp).
    destruct (client_query_call select_by_name [name_of u] s)
      as [[x | e] s1] eqn:Hq.
    + split; [ reflexivity | left ].
      exists select_by_name, [name_of u], x. rewrite Hq.
      repeat split. exists (RowArray (rows x)). split; [ reflexivity | ].
      left. exists (rows x). reflexivity.
    + split; [ reflexivity | right; left ].
      exists select_by_name, [name_of u], e. rewrite Hq. split; reflexivity.
  - rewrite (handler_add _ _ _ _ _ Hu Hp).
    destruct (client_query_call insert_name [name_of u] s)
      as [[x | e] s1] eqn:Hq.
    + split; [ reflexivity | left ].
      exists insert_name, [name_of u], x. rewrite Hq.
      repeat split.
      exists (SuccessMessage true (inserted_message (rowCount x) (name_of u))).
      split; [ reflexivity | ].
      right. exists (inserted_message (rowCount x) (name_of u)). reflexivity.
    + split; [ reflexivity | right; left ].
      exists insert_name, [name_of u], e. rewrite Hq. split; reflexivity.
  - rewrite (handler_unknown _ _ _ _ _ Hu H1 H2 H3 H4).
    split; [ reflexivity | right; right; reflexivity ].
Qed.

(** X1. A request whose URL parses is answered exactly once: after at
    most one statement, the handler writes one head with the JSON
    content type, one body and one log line carrying the same code, and
    the code is 200, 404 or 500. *)
Theorem handler_answers_exactly_once :
  forall (req : IncomingMessage) (u : URL) (s : Session),
    new_URL (url req) base_url = Normal u ->
    exists (sent : list Effect) (body : ResponseObject) (code : nat),
      snd (handler req s)
      = sent ++ [res_writeHead code [("Content-Type", "application/json")];
                 res_end body;
                 console_log (method req) (url req) code]
      /\ (sent = [] \/ exists text values, sent = [client_query text values])
      /\ (code = 200 \/ code = 404 \/ code = 500).
Proof.
  intros req u s Hu.
  destruct (handler_trace_cases req u s Hu)
    as (_ & [(text & values & x & _ & _ & body & Htr & _)
            | [(text & values & e & _ & Htr) | Htr]]).
  - exists [client_query text values], body, 200. rewrite Htr.
    split; [ reflexivity | ]. split; [ right; eauto | left; reflexivity ].
  - exists [client_query text values], (Text (error_text e)), 500. rewrite Htr.
    split; [ reflexivity | ]. split; [ right; eauto | right; right; reflexivity ].
  - exists [], (Text not_found_text), 404. rewrite Htr.
    split; [ reflexivity | ]. split; [ left; reflexivity | right; left; reflexivity ].
Qed.

(** X2. The promise of the handler is rejected exactly when [new URL]
    throws, and then with that exception: no error of the database
    escapes the handler. *)
Theorem handler_rejects_only_on_bad_url :
  forall (req : IncomingMessage) (s : Session) (e : Exn),
    fst (fst (handler req s)) = Throw e
    <-> new_URL (url req) base_url = Throw e.
Proof.
  intros req s e. destruct (new_URL (url req) base_url) as [u | e0] eqn:Hu.
  - destruct (handler_trace_cases req u s Hu) as [Hok _]. rewrite Hok.
    split; discriminate.
  - rewrite (handler_unparsed _ _ _ _ _ Hu). cbn.
    split; intros H; inversion H; reflexivity.
Qed.

(** X3. The method of the request is not read: two requests with the
    same URL are handled alike, whatever their methods, up to the method
    printed in the log line. A POST or a DELETE to [/add] inserts as a
    GET does. *)
Theorem method_is_ignored :
  forall (req req' : IncomingMessage) (s : Session),
    url req = url req' ->
    fst (handler req s) = fst (handler req' s)
    /\ queries (snd (handler req s)) = queries (snd (handler req' s))
    /\ status_codes (snd (handler req s)) = status_codes (snd (handler req' s))
    /\ bodies (snd (handler req s)) = bodies (snd (handler req' s)).
Proof.
  intros req req' s Hurl.
  destruct (new_URL (url req) base_url) as [u | e] eqn:Hu.
  - assert (Hu' : new_URL (url req') base_url = Normal u)
      by (rewrite <- Hurl; exact Hu).
    apply (handler_reads_path_and_name new_URL client_query_call
             req req' u u s Hu Hu'); reflexivity.
  - assert (Hu' : new_URL (url req') base_url = Throw e)
      by (rewrite <- Hurl; exact Hu).
    rewrite (handler_unparsed _ _ _ _ _ Hu), (handler_unparsed _ _ _ _ _ Hu').
    repeat split.
Qed.

(** X4. The shape of the body follows the code: with 200 one statement
    was sent, it returned, and the body is an array of rows or an object
    whose [success] is true; with 404 no statement was sent and the body
    is the fixed string; with 500 the statement threw and the body is a
    string around the message of its error. *)
Theorem body_shape_follows_code :
  forall (req : IncomingMessage) (u : URL) (s : Session)
         (code : nat) (body : ResponseObject),
    new_URL (url req) base_url = Normal u ->
    In code (status_codes (snd (handler req s))) ->
    In body (bodies (snd (handler req s))) ->
    (code = 200
     /\ ((exists found, body = RowArray found)
         \/ exists msg, body = SuccessMessage true msg)
     /\ exists text values x,
         queries (snd (handler req s)) = [(text, values)]
         /\ fst (client_query_call text values s) = Normal x)
    \/ (code = 404
        /\ body = Text "The requested route doesn't exist :("
        /\ queries (snd (handler req s)) = [])
    \/ (code = 500
        /\ exists text values e,
            queries (snd (handler req s)) = [(text, values)]
            /\ fst (client_query_call text values s) = Throw e
            /\ body = Text ("Some error happened :(( -- (error: "
                            ++ message e ++ ")")).
Proof.
  intros req u s code body Hu Hcode Hbody.
  destruct (handler_trace_cases req u s Hu)
    as (_ & [(text & values & x & Hx & Hq & body0 & Htr & Hshape)
            | [(text & values & e & He & Htr) | Htr]]).
  - rewrite Htr in Hcode, Hbody. cbn in Hcode, Hbody.
    destruct Hcode as [<- | []]. destruct Hbody as [<- | []].
    left. split; [ reflexivity | ]. split; [ exact Hshape | ].
    exists text, values, x. split; assumption.
  - rewrite Htr in Hcode, Hbody |- *. cbn in Hcode, Hbody.
    destruct Hcode as [<- | []]. destruct Hbody as [<- | []].
    right; right. split; [ reflexivity | ].
    exists text, values, e. repeat split. exact He.
  - rewrite Htr in Hcode, Hbody |- *. cbn in Hcode, Hbody.
    destruct Hcode as [<- | []]. destruct Hbody as [<- | []].
    right; left. repeat split.
Qed.

(** X5. On ['/'] (or the empty path) the query string is not used: the
    statement sent is the SELECT of all rows with no bound value, and
    two such requests are answered alike whatever [name] they carry. *)
Theorem root_ignores_query_string :
  forall (req req' : IncomingMessage) (u u' : URL) (s : Session),
    new_URL (url req) base_url = Normal u ->
    new_URL (url req') base_url = Normal u' ->
    pathname u = "" \/ pathname u = "/" ->
    pathname u' = "" \/ pathname u' = "/" ->
    queries (snd (handler req s)) = [("SELECT * FROM my_table;", [])]
    /\ fst (handler req s) = fst (handler req' s)
    /\ status_codes (snd (handler req s)) = status_codes (snd (handler req' s))
    /\ bodies (snd (handler req s)) = bodies (snd (handler req' s)).
Proof.
  intros req req' u u' s Hu Hu' Hp Hp'.
  rewrite (handler_default _ _ _ _ _ Hu Hp), (handler_default _ _ _ _ _ Hu' Hp').
  destruct (client_query_call select_all [] s) as [[x | e] s1];
    repeat split.
Qed.

(** X6. When the URL of every incoming request parses, the server
    handles each of them, in order, in either rejection mode, and each
    is answered with exactly one status code. *)
Theorem every_parsed_request_is_served :
  forall (events : list (Event External)) (s : Session),
    (forall req, In req (incoming_requests events) ->
                 exists u, new_URL (url req) base_url = Normal u) ->
    map request (snd (serving events s)) = incoming_requests events
    /\ forall h, In h (snd (serving events s)) ->
                 outcome h = Normal tt
                 /\ length (status_codes (effects h)) = 1.
Proof.
  induction events as [ | ev rest IH]; intros s Hparse.
  - split; [ reflexivity | intros h [] ].
  - destruct ev as [req | ev].
    + destruct (Hparse req (or_introl eq_refl)) as [u Hu].
      destruct (handler_trace_cases req u s Hu) as [Hok Hcases].
      assert (Hone : length (status_codes (snd (handler req s))) = 1).
      { destruct Hcases as [(text & values & x & _ & _ & body & Htr & _)
                           | [(text & values & e & _ & Htr) | Htr]];
          rewrite Htr; reflexivity. }
      cbn [serve incoming_requests].
      destruct (handler req s) as [[r s1] t]. cbn [fst snd] in Hok, Hone.
      subst r.
      assert (Hrest : forall req0, In req0 (incoming_requests rest) ->
                         exists u0, new_URL (url req0) base_url = Normal u0)
        by (intros req0 Hin; apply Hparse; right; exact Hin).
      destruct (IH s1 Hrest) as [Hmap Hall].
      destruct (serving rest s1) as [s2 log]. cbn [fst snd map] in *.
      split.
      * rewrite Hmap. reflexivity.
      * intros h [<- | Hin]; [ split; [ reflexivity | exact Hone ] | ].
        apply Hall. exact Hin.
    + cbn [serve incoming_requests]. apply IH. exact Hparse.
Qed.

End RouterMore.

(** ** More on the handler over the database session *)

Section PostgresMore.
Variable new_URL : string -> string -> completion URL.
Variable unhandled_rejections : RejectionMode.

Local Abbreviation handle := (requestHandler new_URL Pg.query).
Local Abbreviation run :=
  (serve new_URL Pg.query Pg.External Pg.external_step unhandled_rejections).
Local Abbreviation session_after req s := (snd (fst (handle req s))).

(** A handled request leaves the session as it was, or after one
    insert. *)
Lemma session_after_cases req s :
  session_after req s = s
  \/ exists v, Pg.has_nul v = false /\ Pg.broken s = None
               /\ session_after req s = Pg.insert v s.
Proof.
  destruct (new_URL (url req) base_url) as [u | e0] eqn:Hu.
  - destruct (pathname_cases u) as [Hp | [Hp | [Hp | (H1 & H2 & H3 & H4)]]].
    + left. rewrite (handler_default _ _ _ _ _ Hu Hp).
      pose proof (query_select_all_session [] s) as Hs.
      destruct (Pg.query select_all [] s) as [[x | e] s1]; exact Hs.
    + left. rewrite (handler_read _ _ _ _ _ Hu Hp).
      pose proof (query_select_by_name_session [name_of u] s) as Hs.
      destruct (Pg.query select_by_name [name_of u] s) as [[x | e] s1]; exact Hs.
    + rewrite (handler_add _ _ _ _ _ Hu Hp).
      destruct (Pg.query insert_name [name_of u] s) as [[x | e] s1] eqn:Hq.
      * assert (Hok : is_normal (fst (Pg.query insert_name [name_of u] s)) = true)
          by (rewrite Hq; reflexivity).
        destruct (proj1 (query_insert_normal_iff _ _) Hok) as [Hup Hnul].
        rewrite (query_insert_normal _ _ Hok) in Hq. inversion Hq; subst.
        right. exists (name_of u). repeat split; assumption.
      * left. apply query_throw_session in Hq. exact Hq.
    + left. rewrite (handler_unknown _ _ _ _ _ Hu H1 H2 H3 H4). reflexivity.
  - left. rewrite (handler_unparsed _ _ _ _ _ Hu). reflexivity.
Qed.

(** What every handled request and every outside event keeps, the run
    keeps. *)
Lemma run_invariant (P : Pg.Session -> Prop) :
  (forall req s, P s -> P (session_after req s)) ->
  (forall ev s, P s -> P (Pg.external_step ev s)) ->
  forall events s0, P s0 -> P (fst (run events s0)).
Proof.
  intros Hreq Hout. induction events as [ | ev rest IH]; intros s0 H0.
  - exact H0.
  - destruct ev as [req | ev]; cbn [serve].
    + pose proof (Hreq req s0 H0) as H1.
      destruct (handle req s0) as [[r s1] t]. cbn [fst snd] in H1.
      assert (Hgo :
        P (fst (let (s2, log) := run rest s1 in
                (s2, {| request := req; outcome := r; effects := t |} :: log)))).
      { pose proof (IH s1 H1) as H2.
        destruct (run rest s1) as [s2 log]. exact H2. }
      destruct r as [[] | e]; [ exact Hgo | ].
      destruct unhandled_rejections; [ exact H1 | exact Hgo ].
    + apply IH. apply Hout. exact H0.
Qed.

Lemma insert_keeps_ids_fresh (v : string) (s : Pg.Session) :
  ids_fresh s -> ids_fresh (Pg.insert v s).
Proof.
  intros [Hnodup Hbelow]. split.
  - cbn. rewrite map_app. cbn.
    apply NoDup_app_remove_l with (l := []). cbn.
    apply (Permutation_NoDup (l := Pg.my_table_id_seq s :: map id (Pg.my_table s))).
    + apply Permutation_cons_append.
    + constructor; [ | exact Hnodup ].
      intros Hin. apply in_map_iff in Hin. destruct Hin as (r & Hid & Hin).
      specialize (Hbelow r Hin). lia.
  - intros r Hin. cbn in Hin |- *. apply in_app_or in Hin.
    destruct Hin as [Hin | [<- | []]].
    + specialize (Hbelow r Hin). lia.
    + cbn. lia.
Qed.

(** X8. The primary key is kept: when the ids of the table are distinct
    and below the next value of the sequence, they still are after any
    run of the server, whatever the requests and the outside events. The
    handler never chooses an id, so no insert can meet a taken one. *)
Theorem ids_stay_distinct :
  forall (events : list (Event Pg.External)) (s0 : Pg.Session),
    ids_fresh s0 ->
    NoDup (map id (Pg.my_table (fst (run events s0))))
    /\ forall r, In r (Pg.my_table (fst (run events s0))) ->
                 (id r < Pg.my_table_id_seq (fst (run events s0)))%Z.
Proof.
  intros events s0 H0.
  apply (run_invariant ids_fresh); [ | | exact H0 ].
  - intros req s Hs.
    destruct (session_after_cases req s) as [-> | (v & _ & _ & ->)];
      [ exact Hs | apply insert_keeps_ids_fresh; exact Hs ].
  - intros ev s Hs. destruct ev; exact Hs.
Qed.

(** X9. From an empty table, the rows that ['/'] returns after a run
    are, up to their order, named as the successful [/add] requests of
    the run asked: nothing is lost and nothing else appears. *)
Theorem root_returns_what_was_added :
  forall (events : list (Event Pg.External)) (s0 : Pg.Session)
         (req : IncomingMessage) (u : URL) (found : list Row),
    Pg.my_table s0 = [] ->
    new_URL (url req) base_url = Normal u ->
    pathname u = "" \/ pathname u = "/" ->
    In (res_end (RowArray found)) (snd (handle req (fst (run events s0)))) ->
    Permutation (map name found)
      (map Some (inserted_names new_URL (snd (run events s0)))).
Proof.
  intros events s0 req u found Hempty Hu Hp Hin.
  destruct (run_table new_URL unhandled_rejections events s0)
    as (added & Htab & Hnames).
  rewrite Hempty in Htab. cbn in Htab.
  rewrite (handler_default _ _ _ _ _ Hu Hp) in Hin.
  destruct (Pg.query select_all [] (fst (run events s0))) as [[x | e] s1] eqn:Hq.
  - assert (Hok : is_normal
                    (fst (Pg.query select_all [] (fst (run events s0)))) = true)
      by (rewrite Hq; reflexivity).
    rewrite (query_select_all_normal _ Hok) in Hq. inversion Hq; subst x.
    cbn in Hin.
    destruct Hin as [Hin | [Hin | [Hin | [Hin | []]]]]; try discriminate.
    inversion Hin; subst found.
    rewrite Htab, Hnames. apply Permutation_refl.
  - cbn in Hin.
    destruct Hin as [Hin | [Hin | [Hin | [Hin | []]]]]; discriminate.
Qed.

End PostgresMore.

(** ** The scripts and the start of the server, over any client *)

Section ScriptFacts.
Context {Session : Type}.
Variable getClient : completion Session.
Variable client_query_call :
  string -> list string -> Session -> completion QueryResult * Session.
Variable client_end_call : Session -> completion unit * Session.
Variable Date_toString : Z -> string.
Variable new_URL : string -> string -> completion URL.
Variable External : Type.
Variable external_step : External -> Session -> Session.
Variable unhandled_rejections : RejectionMode.

Local Abbreviation add_data :=
  (add_data_js getClient client_query_call client_end_call).
Local Abbreviation read_data :=
  (read_data_js getClient client_query_call client_end_call Date_toString).
Local Abbreviation setup_table :=
  (setup_table_js getClient client_query_call client_end_call).
Local Abbreviation index :=
  (index_js getClient client_query_call new_URL External external_step
     unhandled_rejections).

(** X11. No script has a [try]: when its statement throws, the promise
    of the script is rejected with that error, nothing is printed, and
    [client.end()] is never called, so the connection stays open. *)
Theorem scripts_do_not_end_client_on_failure :
  forall (client s' : Session) (e : Exn) (argv2 : option string),
    getClient = Normal client ->
    (client_query_call insert_name [argv2 ?? "john"] client = (Throw e, s') ->
     add_data argv2
     = (Throw e, Some s', [query_sent insert_name [argv2 ?? "john"]]))
    /\ (client_query_call select_by_name [argv2 ?? "john"] client = (Throw e, s') ->
        read_data argv2
        = (Throw e, Some s', [query_sent select_by_name [argv2 ?? "john"]]))
    /\ (client_query_call createTableQuery_script [] client = (Throw e, s') ->
        setup_table
        = (Throw e, Some s', [query_sent createTableQuery_script []])).
Proof.
  intros client s' e argv2 Hclient.
  unfold add_data_js, read_data_js, setup_table_js, with_client,
    Script.bind, await_client_query.
  rewrite Hclient.
  split; [ | split ]; intros Hq; rewrite Hq; reflexivity.
Qed.

(** read-data.js when the SELECT returns no row. *)
Lemma read_data_without_rows :
  forall (client s' : Session) (entries : QueryResult) (argv2 : option string),
    getClient = Normal client ->
    client_query_call select_by_name [argv2 ?? "john"] client
    = (Normal entries, s') ->
    rows entries = [] ->
    read_data argv2
    = (Throw {| message := "Cannot convert undefined or null to object" |},
       Some s',
       [query_sent "SELECT * FROM my_table WHERE name = $1;" [argv2 ?? "john"];
        console_log_line
          ("Database entries for " ++ (argv2 ?? "john") ++ ": "
           ++ string_of_nat (rowCount entries) ++ " row(s)")]).
Proof.
  intros client s' entries argv2 Hclient Hq Hrows.
  unfold read_data_js, with_client, Script.bind, await_client_query,
    console_log1, Script.emit, Script.eval.
  rewrite Hclient, Hq, Hrows. reflexivity.
Qed.

(** X12. read-data.js does not survive an empty result: when the SELECT
    returns no row, the count line is printed, then [Object.keys] of the
    missing first row throws a TypeError, the promise is rejected, and
    [client.end()] is never called. *)
Theorem read_data_throws_on_no_rows :
  forall (client s' : Session) (entries : QueryResult) (argv2 : option string),
    getClient = Normal client ->
    client_query_call select_by_name [argv2 ?? "john"] client
    = (Normal entries, s') ->
    rows entries = [] ->
    read_data argv2
    = (Throw {| message := "Cannot convert undefined or null to object" |},
       Some s',
       [query_sent "SELECT * FROM my_table WHERE name = $1;" [argv2 ?? "john"];
        console_log_line
          ("Database entries for " ++ (argv2 ?? "john") ++ ": "
           ++ string_of_nat (rowCount entries) ++ " row(s)")]).
Proof.
  intros client s' entries argv2 Hclient Hq Hrows.
  exact (read_data_without_rows client s' entries argv2 Hclient Hq Hrows).
Qed.

(** When the SELECT returns a row, read-data.js prints three lines and
    ends the client. *)
Lemma read_data_with_rows client s' entries r rest argv2 :
  getClient = Normal client ->
  client_query_call select_by_name [argv2 ?? "john"] client
  = (Normal entries, s') ->
  rows entries = r :: rest ->
  read_data argv2
  = (fst (client_end_call s'), Some (snd (client_end_call s')),
     [query_sent select_by_name [argv2 ?? "john"];
      console_log_line
        ("Database entries for " ++ (argv2 ?? "john") ++ ": "
         ++ string_of_nat (rowCount entries) ++ " row(s)");
      console_log_line (Array_join TAB [Some "id"; Some "name"; Some "date"]);
      console_log_line
        (Array_join LF
           (map (fun r0 => Some (Array_join TAB (Object_values Date_toString r0)))
                (r :: rest)));
      client_end]).
Proof.
  intros Hclient Hq Hrows.
  unfold read_data_js, with_client, Script.bind, await_client_query,
    await_client_end, console_log1, Script.emit, Script.eval.
  rewrite Hclient, Hq, Hrows. cbn [hd_error Object_keys].
  destruct (client_end_call s') as [c s2]. reflexivity.
Qed.

(** X13. setup-table.js and [setupTable] of index.js send the same
    statement with no bound value: the two copies of the CREATE TABLE
    text are the same string, and the server sets up the table that the
    script sets up. *)
Theorem setup_table_js_agrees_with_setupTable :
  statements_sent (snd setup_table)
  = statements_sent
      (snd (with_client getClient (setupTable client_query_call)))
  /\ createTableQuery_script = createTableQuery_index.
Proof.
  split; [ | reflexivity ].
  unfold setup_table_js, setupTable, with_client, Script.bind,
    await_client_query, await_client_end, console_log1, Script.emit.
  change createTableQuery_script with createTableQuery_index.
  destruct getClient as [client | e]; [ | reflexivity ].
  destruct (client_query_call createTableQuery_index [] client) as [[x | e] s1];
    [ | reflexivity ].
  destruct (client_end_call s1) as [c s2]. reflexivity.
Qed.

(** X14. A failed start is final: when [getClient] or the CREATE TABLE
    statement throws, the promise of index.js is rejected with that
    error, the server never listens, nothing is printed, and no request
    is handled. *)
Theorem failed_start_serves_nothing :
  forall (events : list (Event External)) (e : Exn),
    getClient = Throw e
    \/ (exists client s1,
           getClient = Normal client
           /\ client_query_call createTableQuery_index [] client = (Throw e, s1)) ->
    fst (fst (fst (index events))) = Throw e
    /\ existsb is_server_listen (snd (fst (index events))) = false
    /\ lines_printed (snd (fst (index events))) = []
    /\ snd (index events) = [].
Proof.
  intros events e
    [Hclient | (client & s1 & Hclient & Hq)];
    unfold index_js, with_client, start_server, setupTable, Script.bind,
      await_client_query;
    rewrite Hclient; [ | rewrite Hq ]; repeat split.
Qed.

(** X15. A successful start: when [getClient] and the CREATE TABLE
    statement return, the statement is sent once and before anything
    else, the server listens on port 8080 of 0.0.0.0, the address is
    printed, and the requests are handled from the session that the
    statement left. *)
Theorem successful_start_then_serves :
  forall (events : list (Event External)) (client s1 : Session)
         (x : QueryResult),
    getClient = Normal client ->
    client_query_call createTableQuery_index [] client = (Normal x, s1) ->
    index events
    = (Normal tt,
       Some (fst (serve new_URL client_query_call External external_step
                    unhandled_rejections events s1)),
       [query_sent createTableQuery_index [];
        server_listen 8080 "0.0.0.0";
        console_log_line "Listening on: http://0.0.0.0:8080"],
       snd (serve new_URL client_query_call External external_step
              unhandled_rejections events s1)).
Proof.
  intros events client s1 x Hclient Hq.
  unfold index_js, with_client, start_server, setupTable, Script.bind,
    await_client_query, console_log1, Script.emit.
  rewrite Hclient, Hq. cbn [app].
  destruct (serve new_URL client_query_call External external_step
              unhandled_rejections events s1) as [s2 log].
  reflexivity.
Qed.

End ScriptFacts.

(** ** The scripts over the database session *)

Section ScriptsOnPostgres.
Variable new_URL : string -> string -> completion URL.
Variable Date_toString : Z -> string.

Local Abbreviation handle := (requestHandler new_URL Pg.query).

(** X16. On a connected session, read-data.js for a name without a zero
    byte is fulfilled exactly when some row of the table has that name;
    for a name that no row has, it is rejected, where the [/read] route
    answers with an empty array. *)
Theorem read_data_fulfils_iff_some_row :
  forall (s : Pg.Session) (argv2 : option string),
    Pg.broken s = None ->
    Pg.has_nul (argv2 ?? "john") = false ->
    fst (fst (read_data_js (Normal s) Pg.query pg_end Date_toString argv2))
    = Normal tt
    <-> exists r, In r (Pg.my_table s) /\ name r = Some (argv2 ?? "john").
Proof.
  intros s argv2 Hup Hnul.
  assert (Hok : is_normal
                  (fst (Pg.query select_by_name [argv2 ?? "john"] s)) = true)
    by (apply query_select_by_name_normal_iff; split; assumption).
  pose proof (query_select_by_name_normal _ _ Hok) as Hq.
  destruct (Pg.select_where_name (argv2 ?? "john") (Pg.my_table s))
    as [ | r rest] eqn:Hsel.
  - rewrite (read_data_without_rows (Normal s) Pg.query pg_end
               Date_toString s s _ argv2 eq_refl Hq); [ | reflexivity ].
    split; [ discriminate | ].
    intros (r & Hin & Hname).
    assert (Hin' : In r (Pg.select_where_name (argv2 ?? "john") (Pg.my_table s)))
      by (apply select_where_name_spec; split; assumption).
    rewrite Hsel in Hin'. destruct Hin'.
  - rewrite (read_data_with_rows (Normal s) Pg.query pg_end Date_toString
               s s _ r rest argv2 eq_refl Hq); [ | reflexivity ].
    split; [ | reflexivity ].
    intros _. exists r. apply select_where_name_spec. rewrite Hsel.
    left. reflexivity.
Qed.

(** X17. add-data.js does to the table what the [/add] route does: for
    the same name (given or defaulted), both send the same statement with
    the same bound value and leave the same table and the same next id,
    whether the statement succeeds or not. *)
Theorem add_data_js_matches_add_route :
  forall (s : Pg.Session) (req : IncomingMessage) (u : URL)
         (argv2 : option string),
    new_URL (url req) base_url = Normal u ->
    pathname u = "/add" ->
    searchParams_get (searchParams u) "name" = argv2 ->
    statements_sent (snd (add_data_js (Normal s) Pg.query pg_end argv2))
    = queries (snd (handle req s))
    /\ option_map Pg.my_table
         (snd (fst (add_data_js (Normal s) Pg.query pg_end argv2)))
       = Some (Pg.my_table (snd (fst (handle req s))))
    /\ option_map Pg.my_table_id_seq
         (snd (fst (add_data_js (Normal s) Pg.query pg_end argv2)))
       = Some (Pg.my_table_id_seq (snd (fst (handle req s)))).
Proof.
  intros s req u argv2 Hu Hp Hname.
  assert (Hn : name_of u = argv2 ?? "john")
    by (unfold name_of; rewrite Hname; reflexivity).
  rewrite (handler_add _ _ _ _ _ Hu Hp), Hn.
  unfold add_data_js, with_client, Script.bind, await_client_query,
    await_client_end, console_log1, Script.emit, pg_end.
  destruct (Pg.query insert_name [argv2 ?? "john"] s) as [[x | e] s1];
    repeat split.
Qed.

End ScriptsOnPostgres.

(** ** The further theorems at concrete requests *)

Lemma handler_answers_exactly_once_witness :
  exists (sent : list Effect) (body : ResponseObject) (code : nat),
    snd (requestHandler OriginForm.new_URL Pg.query (GET "/read?name=bob")
           three_rows)
    = sent ++ [res_writeHead code [("Content-Type", "application/json")];
               res_end body;
               console_log "GET" "/read?name=bob" code]
    /\ (sent = [] \/ exists text values, sent = [client_query text values])
    /\ (code = 200 \/ code = 404 \/ code = 500).
Proof.
  apply (handler_answers_exactly_once OriginForm.new_URL Pg.query
           (GET "/read?name=bob")
           {| pathname := "/read"; searchParams := [("name", "bob")] |}
           three_rows).
  reflexivity.
Defined.

Lemma method_is_ignored_witness :
  fst (requestHandler OriginForm.new_URL Pg.query
         {| method := "DELETE"; url := "/add?name=bob" |} three_rows)
  = fst (requestHandler OriginForm.new_URL Pg.query (GET "/add?name=bob")
           three_rows)
  /\ status_codes
       (snd (requestHandler OriginForm.new_URL Pg.query
               {| method := "DELETE"; url := "/add?name=bob" |} three_rows))
     = [200].
Proof.
  destruct (method_is_ignored OriginForm.new_URL Pg.query
              {| method := "DELETE"; url := "/add?name=bob" |}
              (GET "/add?name=bob") three_rows)
    as (Hsame & _ & Hcodes & _).
  - reflexivity.
  - split; [ exact Hsame | rewrite Hcodes; reflexivity ].
Defined.

Lemma body_shape_follows_code_witness :
  (404 = 200
   /\ ((exists found, Text not_found_text = RowArray found)
       \/ exists msg, Text not_found_text = SuccessMessage true msg)
   /\ exists text values x,
       queries (snd (requestHandler OriginForm.new_URL Pg.query
                       (GET "/nowhere") three_rows)) = [(text, values)]
       /\ fst (Pg.query text values three_rows) = Normal x)
  \/ (404 = 404
      /\ Text not_found_text = Text "The requested route doesn't exist :("
      /\ queries (snd (requestHandler OriginForm.new_URL Pg.query
                         (GET "/nowhere") three_rows)) = [])
  \/ (404 = 500
      /\ exists text values e,
          queries (snd (requestHandler OriginForm.new_URL Pg.query
                          (GET "/nowhere") three_rows)) = [(text, values)]
          /\ fst (Pg.query text values three_rows) = Throw e
          /\ Text not_found_text
             = Text ("Some error happened :(( -- (error: " ++ message e ++ ")")).
Proof.
  apply (body_shape_follows_code OriginForm.new_URL Pg.query (GET "/nowhere")
           {| pathname := "/nowhere"; searchParams := [] |} three_rows
           404 (Text not_found_text)).
  - reflexivity.
  - vm_compute. left. reflexivity.
  - vm_compute. left. reflexivity.
Defined.

Lemma root_ignores_query_string_witness :
  queries (snd (requestHandler OriginForm.new_URL Pg.query (GET "/?name=bob")
                  three_rows))
  = [("SELECT * FROM my_table;", [])]
  /\ fst (requestHandler OriginForm.new_URL Pg.query (GET "/?name=bob") three_rows)
     = fst (requestHandler OriginForm.new_URL Pg.query (GET "/") three_rows)
  /\ status_codes (snd (requestHandler OriginForm.new_URL Pg.query
                          (GET "/?name=bob") three_rows))
     = status_codes (snd (requestHandler OriginForm.new_URL Pg.query
                            (GET "/") three_rows))
  /\ bodies (snd (requestHandler OriginForm.new_URL Pg.query
                    (GET "/?name=bob") three_rows))
     = bodies (snd (requestHandler OriginForm.new_URL Pg.query
                      (GET "/") three_rows)).
Proof.
  apply (root_ignores_query_string OriginForm.new_URL Pg.query
           (GET "/?name=bob") (GET "/")
           {| pathname := "/"; searchParams := [("name", "bob")] |}
           {| pathname := "/"; searchParams := [] |} three_rows).
  - reflexivity.
  - reflexivity.
  - right. reflexivity.
  - right. reflexivity.
Defined.

Lemma every_parsed_request_is_served_witness :
  map request
    (snd (serve OriginForm.new_URL Pg.query Pg.External Pg.external_step
            rejections_throw quiet_morning Pg.fresh))
  = [GET "/add?name=bob"; GET "/nowhere"; GET "/read?name=bob"]
  /\ forall h,
      In h (snd (serve OriginForm.new_URL Pg.query Pg.External
                   Pg.external_step rejections_throw quiet_morning Pg.fresh)) ->
      outcome h = Normal tt /\ length (status_codes (effects h)) = 1.
Proof.
  apply (every_parsed_request_is_served OriginForm.new_URL Pg.query
           Pg.External Pg.external_step rejections_throw quiet_morning
           Pg.fresh).
  intros req Hin. cbn in Hin.
  destruct Hin as [<- | [<- | [<- | []]]]; eexists; reflexivity.
Defined.

Lemma ids_stay_distinct_witness :
  NoDup (map id (Pg.my_table
                   (fst (serve OriginForm.new_URL Pg.query Pg.External
                           Pg.external_step rejections_warn busy_morning
                           Pg.fresh))))
  /\ forall r,
      In r (Pg.my_table
              (fst (serve OriginForm.new_URL Pg.query Pg.External
                      Pg.external_step rejections_warn busy_morning
                      Pg.fresh))) ->
      (id r < Pg.my_table_id_seq
                (fst (serve OriginForm.new_URL Pg.query Pg.External
                        Pg.external_step rejections_warn busy_morning
                        Pg.fresh)))%Z.
Proof.
  apply (ids_stay_distinct OriginForm.new_URL rejections_warn busy_morning
           Pg.fresh).
  split.
  - constructor.
  - intros r [].
Defined.

Lemma root_returns_what_was_added_witness :
  Permutation
    (map name
       (Pg.my_table
          (fst (serve OriginForm.new_URL Pg.query Pg.External Pg.external_step
                  rejections_warn busy_morning Pg.fresh))))
    [Some "bob"; Some "john"; Some "alice"].
Proof.
  apply (root_returns_what_was_added OriginForm.new_URL rejections_warn
           busy_morning Pg.fresh (GET "/")
           {| pathname := "/"; searchParams := [] |}).
  - reflexivity.
  - reflexivity.
  - right. reflexivity.
  - vm_compute. right. right. left. reflexivity.
Defined.

Lemma scripts_do_not_end_client_on_failure_witness :
  add_data_js (Normal disconnected) Pg.query pg_end (Some "bob")
  = (Throw {| message := "Connection terminated unexpectedly" |},
     Some disconnected, [query_sent insert_name ["bob"]])
  /\ read_data_js (Normal disconnected) Pg.query pg_end string_of_Z (Some "bob")
     = (Throw {| message := "Connection terminated unexpectedly" |},
        Some disconnected, [query_sent select_by_name ["bob"]])
  /\ setup_table_js (Normal disconnected) Pg.query pg_end
     = (Throw {| message := "Connection terminated unexpectedly" |},
        Some disconnected, [query_sent createTableQuery_script []]).
Proof.
  destruct (scripts_do_not_end_client_on_failure (Normal disconnected)
              Pg.query pg_end string_of_Z disconnected disconnected
              {| message := "Connection terminated unexpectedly" |}
              (Some "bob") eq_refl)
    as (Hadd & Hread & Hsetup).
  split; [ | split ].
  - apply Hadd. reflexivity.
  - apply Hread. reflexivity.
  - apply Hsetup. reflexivity.
Defined.

Lemma read_data_throws_on_no_rows_witness :
  read_data_js (Normal three_rows) Pg.query pg_end string_of_Z (Some "carol")
  = (Throw {| message := "Cannot convert undefined or null to object" |},
     Some three_rows,
     [query_sent "SELECT * FROM my_table WHERE name = $1;" ["carol"];
      console_log_line "Database entries for carol: 0 row(s)"]).
Proof.
  apply (read_data_throws_on_no_rows (Normal three_rows) Pg.query pg_end
           string_of_Z three_rows three_rows (Pg.selected []) (Some "carol")).
  - reflexivity.
  - reflexivity.
  - reflexivity.
Defined.

Lemma failed_start_serves_nothing_witness :
  fst (fst (fst (index_js (Throw {| message := "connect ECONNREFUSED" |})
                   Pg.query OriginForm.new_URL Pg.External Pg.external_step
                   rejections_throw busy_morning)))
  = Throw {| message := "connect ECONNREFUSED" |}
  /\ existsb is_server_listen
       (snd (fst (index_js (Throw {| message := "connect ECONNREFUSED" |})
                    Pg.query OriginForm.new_URL Pg.External Pg.external_step
                    rejections_throw busy_morning))) = false
  /\ lines_printed
       (snd (fst (index_js (Throw {| message := "connect ECONNREFUSED" |})
                    Pg.query OriginForm.new_URL Pg.External Pg.external_step
                    rejections_throw busy_morning))) = []
  /\ snd (index_js (Throw {| message := "connect ECONNREFUSED" |})
            Pg.query OriginForm.new_URL Pg.External Pg.external_step
            rejections_throw busy_morning) = [].
Proof.
  apply (failed_start_serves_nothing
           (Throw {| message := "connect ECONNREFUSED" |})
           Pg.query OriginForm.new_URL Pg.External Pg.external_step
           rejections_throw busy_morning
           {| message := "connect ECONNREFUSED" |}).
  left. reflexivity.
Defined.

Lemma successful_start_then_serves_witness :
  snd (fst (index_js (Normal Pg.fresh) pg_query_with_setup OriginForm.new_URL
              Pg.External Pg.external_step rejections_throw quiet_morning))
  = [query_sent createTableQuery_index [];
     server_listen 8080 "0.0.0.0";
     console_log_line "Listening on: http://0.0.0.0:8080"]
  /\ map (fun h => status_codes (effects h))
       (snd (index_js (Normal Pg.fresh) pg_query_with_setup OriginForm.new_URL
               Pg.External Pg.external_step rejections_throw quiet_morning))
     = [[200]; [404]; [200]].
Proof.
  rewrite (successful_start_then_serves (Normal Pg.fresh) pg_query_with_setup
             OriginForm.new_URL Pg.External Pg.external_step rejections_throw
             quiet_morning Pg.fresh Pg.fresh {| rows := []; rowCount := 0 |}).
  - split; reflexivity.
  - reflexivity.
  - reflexivity.
Defined.

Lemma read_data_fulfils_iff_some_row_witness :
  fst (fst (read_data_js (Normal three_rows) Pg.query pg_end string_of_Z
              (Some "bob")))
  = Normal tt
  <-> exists r, In r (Pg.my_table three_rows) /\ name r = Some "bob".
Proof.
  apply (read_data_fulfils_iff_some_row string_of_Z three_rows (Some "bob")).
  - reflexivity.
  - reflexivity.
Defined.

Lemma add_data_js_matches_add_route_witness :
  statements_sent (snd (add_data_js (Normal three_rows) Pg.query pg_end None))
  = queries (snd (requestHandler OriginForm.new_URL Pg.query (GET "/add")
                    three_rows))
  /\ option_map Pg.my_table
       (snd (fst (add_data_js (Normal three_rows) Pg.query pg_end None)))
     = Some (Pg.my_table
               (snd (fst (requestHandler OriginForm.new_URL Pg.query
                            (GET "/add") three_rows))))
  /\ option_map Pg.my_table_id_seq
       (snd (fst (add_data_js (Normal three_rows) Pg.query pg_end None)))
     = Some (Pg.my_table_id_seq
               (snd (fst (requestHandler OriginForm.new_URL Pg.query
                            (GET "/add") three_rows)))).
Proof.
  apply (add_data_js_matches_add_route OriginForm.new_URL three_rows
           (GET "/add") {| pathname := "/add"; searchParams := [] |} None).
  - reflexivity.
  - reflexivity.
  - reflexivity.
Defined.

(** ** Requests whose name holds a zero byte *)

Example new_URL_add_zero_byte :
  PercentForm.new_URL "/add?name=%00" base_url
  = Normal {| pathname := "/add"; searchParams := [("name", zero_byte)] |}.
Proof. reflexivity. Qed.

Example new_URL_percent_agrees_on_plain :
  PercentForm.new_URL "/add?name=bob" base_url
  = OriginForm.new_URL "/add?name=bob" base_url.
Proof. reflexivity. Qed.

(** C3, without the condition that the INSERT is accepted, fails: the
    request [/add?name=%00] names the zero byte, which no text column
    takes. On a connected session the INSERT throws, the answer is 500
    with the error string, and the table is as it was: no row was
    inserted and the code is not 200. *)
Lemma C3_add_zero_byte_counterexample :
  PercentForm.new_URL (url (GET "/add?name=%00")) base_url
  = Normal {| pathname := "/add"; searchParams := [("name", zero_byte)] |}
  /\ Pg.broken three_rows = None
  /\ requestHandler PercentForm.new_URL Pg.query (GET "/add?name=%00") three_rows
     = (Normal tt, three_rows,
        [client_query "INSERT INTO my_table(name) VALUES($1);" [zero_byte];
         res_writeHead 500 json_headers;
         res_end (Text (error_text Pg.invalid_byte_sequence));
         console_log "GET" "/add?name=%00" 500])
  /\ ~ (exists row : Row,
           name row = Some zero_byte
           /\ Pg.my_table
                (snd (fst (requestHandler PercentForm.new_URL Pg.query
                             (GET "/add?name=%00") three_rows)))
              = Pg.my_table three_rows ++ [row]
           /\ In 200 (status_codes
                        (snd (requestHandler PercentForm.new_URL Pg.query
                                (GET "/add?name=%00") three_rows)))).
Proof.
  split; [ reflexivity | ]. split; [ reflexivity | ]. split; [ reflexivity | ].
  intros (row & _ & _ & H200). vm_compute in H200.
  destruct H200 as [H | []]. discriminate H.
Qed.

(** C2, without the condition that the SELECT is accepted, fails: the
    request [/read?name=%00] asks for a name that no row has and that
    was never inserted, and on a connected session it is answered 500
    with the error string, not 200 with an empty array. *)
Lemma C2_read_zero_byte_counterexample :
  PercentForm.new_URL (url (GET "/read?name=%00")) base_url
  = Normal {| pathname := "/read"; searchParams := [("name", zero_byte)] |}
  /\ Pg.broken three_rows = None
  /\ (forall r, In r (Pg.my_table three_rows) -> name r <> Some zero_byte)
  /\ requestHandler PercentForm.new_URL Pg.query (GET "/read?name=%00") three_rows
     = (Normal tt, three_rows,
        [client_query "SELECT * FROM my_table WHERE name = $1;" [zero_byte];
         res_writeHead 500 json_headers;
         res_end (Text (error_text Pg.invalid_byte_sequence));
         console_log "GET" "/read?name=%00" 500])
  /\ ~ (exists found : list Row,
           requestHandler PercentForm.new_URL Pg.query (GET "/read?name=%00")
             three_rows
           = (Normal tt, three_rows,
              [client_query "SELECT * FROM my_table WHERE name = $1;" [zero_byte];
               res_writeHead 200 json_headers;
               res_end (RowArray found);
               console_log "GET" "/read?name=%00" 200])).
Proof.
  split; [ reflexivity | ]. split; [ reflexivity | ]. split.
  - intros r Hin. cbn in Hin.
    destruct Hin as [<- | [<- | [<- | []]]]; discriminate.
  - split; [ reflexivity | ].
    intros (found & Hrun). vm_compute in Hrun. discriminate Hrun.
Qed.
